(** * Bounded multi-stream imitation dataset: [src/utils/dataset.py]

    A shallow embedding of the action codec, the mask extraction, the
    preprocessing pipeline and the [AbstractDataset] class, followed by the
    properties of the specification that concern them.

    Numbers.  numpy's float arrays are read as arrays of rationals ([Q]):
    the model covers finite values and exact arithmetic; NaN, infinities and
    rounding are outside it.  Integer pixel arrays are arrays of [Z].
    Exceptions keep their Python names; the specification's ValidationError
    is what the [assert] of the codec raises ([AssertionError]) or what numpy
    raises on shapes that do not fit ([ValueError]); its StateError is the
    [AttributeError] of the attribute [instance_weights] that does not exist
    yet. *)

From Stdlib Require Import ZArith QArith Qabs List Bool Lia.
From Stdlib Require Import Lqa Permutation Sorted.
From Stdlib Require String Ascii OrderedTypeEx.
Import ListNotations.

Set Implicit Arguments.

(* ================================================================= *)
(** ** Exceptions and results *)

Inductive exn : Type :=
| AssertionError
| ValueError
| IndexError
| AttributeError.

Inductive result (A : Type) : Type :=
| Ok (a : A)
| Raise (e : exn).

Arguments Ok {A} a.
Arguments Raise {A} e.

Definition rbind {A B : Type} (r : result A) (k : A -> result B) : result B :=
  match r with
  | Ok a => k a
  | Raise e => Raise e
  end.

(* ================================================================= *)
(** ** Comparisons of numpy scalars *)

Definition Qgtb (x y : Q) : bool := negb (Qle_bool x y).
Definition Qltb (x y : Q) : bool := negb (Qle_bool y x).
Definition Qgeb (x y : Q) : bool := Qle_bool y x.

(* ================================================================= *)
(** ** Action codec *)

(** A row of the gym format: [(steer, throttle, brake)]. *)
Record gym_action : Type := GymAction {
  steer : Q;
  throttle : Q;
  brake : Q
}.

(** A row of the models format: [(steer, acceleration)]. *)
Record model_action : Type := ModelAction {
  m_steer : Q;
  m_accel : Q
}.

(** [(action[:, 1] > 0.0) & (action[:, 2] > 0.0)], one row. *)
Definition both_pedals (a : gym_action) : bool :=
  Qgtb (throttle a) 0 && Qgtb (brake a) 0.

(** One row of [converted_actions]: the steering is kept, the acceleration
    is throttle minus brake. *)
Definition models_row (a : gym_action) : model_action :=
  ModelAction (steer a) (throttle a - brake a).

(** [convert_action_gym_to_models]: the assertion on the whole batch, then
    the rows. *)
Definition convert_action_gym_to_models (action : list gym_action)
  : result (list model_action) :=
  if existsb both_pedals action then Raise AssertionError
  else Ok (map models_row action).

(** One row of [controls], which starts as zeros: column 0 is the steering,
    column 1 receives the acceleration where it is [>= 0], column 2 its
    opposite where it is [< 0]. *)
Definition gym_row (o : model_action) : gym_action :=
  GymAction (m_steer o)
            (if Qgeb (m_accel o) 0 then m_accel o else 0)
            (if Qltb (m_accel o) 0 then - m_accel o else 0).

(** [convert_action_models_to_gym] *)
Definition convert_action_models_to_gym (outputs : list model_action)
  : list gym_action :=
  map gym_row outputs.

(* ================================================================= *)
(** ** Arrays *)

(** A pixel of an [H x W x 3] frame of integers: [image[..., 0]],
    [image[..., 1]], [image[..., 2]]. *)
Record pixel : Type := Pixel {
  red : Z;
  green : Z;
  blue : Z
}.

Definition matrix (A : Type) : Type := list (list A).

Definition frame : Type := matrix pixel.

(** An array handed to a function that tests [len(image.shape) == 3]: one
    frame, or a batch of frames. *)
Inductive ndimage (F : Type) : Type :=
| Single (f : F)
| Batch (fs : list F).

Arguments Single {F} f.
Arguments Batch {F} fs.

(** [if len(image.shape) == 3: image = image[None, :, :, :]] *)
Definition as_batch {F : Type} (image : ndimage F) : list F :=
  match image with
  | Single f => [f]
  | Batch fs => fs
  end.

(** [l[lo:hi] = v] on one axis: the positions [lo <= i < hi] that exist are
    rewritten by [f], the others are kept. *)
Fixpoint assign_from {A : Type} (lo hi : nat) (f : A -> A) (i : nat) (l : list A)
  : list A :=
  match l with
  | [] => []
  | x :: l' =>
      (if (lo <=? i)%nat && (i <? hi)%nat then f x else x)
        :: assign_from lo hi f (S i) l'
  end.

Definition assign_slice {A : Type} (lo hi : nat) (f : A -> A) (l : list A)
  : list A :=
  assign_from lo hi f 0 l.

Definition matrix_shape {A : Type} (h w : nat) (m : matrix A) : Prop :=
  length m = h /\ Forall (fun row => length row = w) m.

(** The shape of a rank-4 array, read off the first element of each axis. *)
Definition shape4 {A : Type} (t : list (list (matrix A))) : list nat :=
  [ length t;
    length (hd [] t);
    length (hd [] (hd [] t));
    length (hd [] (hd [] (hd [] t))) ].

(** [t[n, ch, r, c]] *)
Definition at4 {A : Type} (t : list (list (matrix A))) (n ch r c : nat)
  : option A :=
  match nth_error t n with
  | None => None
  | Some x =>
      match nth_error x ch with
      | None => None
      | Some m =>
          match nth_error m r with
          | None => None
          | Some row => nth_error row c
          end
      end
  end.

(* ================================================================= *)
(** ** Mask extraction *)

Definition x_min : nat := 45.
Definition x_max : nat := 52.
Definition y_min : nat := 65.
Definition y_max : nat := 80.

(** [image.mean(axis=3)] of one pixel. *)
Definition pixel_mean (p : pixel) : Q :=
  inject_Z (red p + green p + blue p) / 3.

(** [image[:, :, :, 0] > 150] *)
Definition chevrons (f : frame) : matrix bool :=
  map (map (fun p => (150 <? red p)%Z)) f.

(** [np.abs(image.mean(axis=3) - 105) < 15] *)
Definition road (f : frame) : matrix bool :=
  map (map (fun p => Qltb (Qabs (pixel_mean p - 105)) 15)) f.

(** [image[:, y_min:y_max, x_min:x_max] = [105, 105, 105]], one frame. *)
Definition blank_dashboard (f : frame) : frame :=
  assign_slice y_min y_max
    (assign_slice x_min x_max (fun _ => Pixel 105 105 105)) f.

(** [extract_observation_features].  The result is always a batch: axis 0 is
    the frame, axis 1 the mask ([chevrons], then [road]), axes 2 and 3 the
    rows and columns ([np.stack(..., axis=3)] followed by the transposition
    [(0, 3, 1, 2)]). *)
Definition extract_observation_features (image : ndimage frame)
  : list (list (matrix bool)) :=
  let image := as_batch image in
  let image := map (firstn 84) image in
  let image := map blank_dashboard image in
  map (fun f => [chevrons f; road f]) image.

(* ================================================================= *)
(** ** Configuration *)

(** The settings of [conf/default_conf.py] that [dataset.py] reads. *)
Record Conf : Type := {
  IMITATION_MAX_MEMORY : nat;
  IMITATION_BALANCE_BINS : nat;
  USE_RGB : bool;
  OBS_MEAN : Q;
  OBS_STD : Q;
  SPEED_MEAN : Q;
  SPEED_STD : Q;
  WHEEL_OMEGA_MEAN : Q;
  WHEEL_OMEGA_STD : Q;
  WHEEL_OMEGA_STD_MEAN : Q;
  WHEEL_OMEGA_STD_STD : Q;
  ANGULAR_VELOCITY_MEAN : Q;
  ANGULAR_VELOCITY_STD : Q;
  STEERING_JOINT_ANGLE_MEAN : Q;
  STEERING_JOINT_ANGLE_STD : Q;
  CURVATURE_MEAN : Q;
  CURVATURE_STD : Q
}.

(* ================================================================= *)
(** ** Bounded double-ended queue *)

(** Python indexing of a sequence of length [n] (a queue, a tensor along its
    first axis): a negative index counts from the right end; an index
    outside [-n <= i < n] is an [IndexError]. *)
Definition sequence_index {A : Type} (l : list A) (i : Z) : result A :=
  let n := Z.of_nat (length l) in
  let j := (if i <? 0 then i + n else i)%Z in
  if ((j <? 0) || (n <=? j))%Z then Raise IndexError
  else match nth_error l (Z.to_nat j) with
       | Some x => Ok x
       | None => Raise IndexError
       end.

Module Deque.

(** [collections.deque(maxlen=...)]. *)
Record t (A : Type) : Type := Make {
  items : list A;
  maxlen : nat
}.

Arguments Make {A} items maxlen.
Arguments items {A} _.
Arguments maxlen {A} _.

Definition empty {A : Type} (maxlen : nat) : t A := Make [] maxlen.

Definition len {A : Type} (d : t A) : nat := length (items d).

(** [d.append(x)]: the new element goes to the right end; when the queue
    is then longer than [maxlen], the left end is dropped. *)
Definition append {A : Type} (d : t A) (x : A) : t A :=
  let l := items d ++ [x] in
  Make (if (maxlen d <? length l)%nat then tl l else l) (maxlen d).

(** [d += xs]: the elements are appended one by one, left to right. *)
Definition extend {A : Type} (d : t A) (xs : list A) : t A :=
  fold_left append xs d.

(** [d[i]] *)
Definition getitem {A : Type} (d : t A) (i : Z) : result A :=
  sequence_index (items d) i.

End Deque.

(** The last [n] elements of [l], in order. *)
Definition lastn {A : Type} (n : nat) (l : list A) : list A :=
  skipn (length l - n) l.

(* ================================================================= *)
(** ** Records and samples *)

(** One row of [wheels_omegas] after [reshape(-1, 4)]. *)
Record wheels : Type := Wheels {
  omega0 : Q;
  omega1 : Q;
  omega2 : Q;
  omega3 : Q
}.

(** The arguments of one [append] call: the seven time series of a trace
    record, named after the keys of the archive. *)
Record record : Type := Record_ {
  observation_history : list frame;
  speed_history : list Q;
  wheels_omegas_history : list wheels;
  angular_velocity_history : list Q;
  steering_joint_angle_history : list Q;
  action_history : list gym_action;
  curvature_history : list Q
}.

(** A buffered observation: the integer colour frame when [USE_RGB] is
    set, its channel mean ([H x W x 1], floating point) otherwise. *)
Inductive obs_frame : Type :=
| RGB (f : frame)
| Gray (f : matrix Q).

(** The tuple that [__getitem__] returns, in its order. *)
Record Sample : Type := MkSample {
  s_obs : list (matrix Q);
  s_state : list Q;
  s_action : model_action;
  s_weight : Q;
  s_curvature : Q;
  s_masks : list (matrix Z)
}.

(** The five queues of [AbstractDataset] and the attribute
    [instance_weights], which [__init__] does not create. *)
Record AbstractDataset : Type := MkDataset {
  observation : Deque.t obs_frame;
  state : Deque.t (list Q);
  action : Deque.t model_action;
  curvature : Deque.t Q;
  masks : Deque.t (list (matrix Z));
  instance_weights : option (list Q)
}.

(** A method of the dataset: it reads and writes the object and returns or
    raises.  The object survives an exception in the state it had when the
    exception was raised. *)
Definition M (A : Type) : Type := AbstractDataset -> result A * AbstractDataset.

Definition ret {A : Type} (a : A) : M A := fun d => (Ok a, d).

Definition bind {A B : Type} (m : M A) (k : A -> M B) : M B :=
  fun d =>
    match m d with
    | (Ok a, d') => k a d'
    | (Raise e, d') => (Raise e, d')
    end.

Definition lift {A : Type} (r : result A) : M A := fun d => (r, d).

Definition modify (f : AbstractDataset -> AbstractDataset) : M unit :=
  fun d => (Ok tt, f d).

Declare Scope method_scope.
Delimit Scope method_scope with method.

Notation "x <- c1 ;; c2" := (bind c1 (fun x => c2))
  (at level 61, c1 at next level, right associativity) : method_scope.
Notation "' pat <- c1 ;; c2" :=
  (bind c1 (fun x => match x with pat => c2 end))
  (at level 61, pat pattern, c1 at next level, right associativity)
  : method_scope.
Notation "c1 ;; c2" := (bind c1 (fun _ => c2))
  (at level 61, right associativity) : method_scope.

(* ================================================================= *)
(** ** Preprocessing and the dataset *)

(** [np.concatenate((a, b), axis=-1)] of two arrays with as many rows. *)
Fixpoint hstack (a b : matrix Q) : matrix Q :=
  match a, b with
  | x :: a', y :: b' => (x ++ y) :: hstack a' b'
  | _, _ => []
  end.

(** [np.concatenate(arrays, axis=-1)] of two-dimensional arrays: the numbers
    of rows must all be the same, or numpy raises [ValueError]. *)
Definition concatenate (arrays : list (matrix Q)) : result (matrix Q) :=
  match arrays with
  | [] => Raise ValueError
  | a :: rest =>
      if forallb (fun b => (length b =? length a)%nat) rest
      then Ok (fold_left hstack rest a)
      else Raise ValueError
  end.

(** [(x - mean) / std] *)
Definition normalize (mean std x : Q) : Q := (x - mean) / std.

(** [.reshape(-1, 1)] of a vector: one row per value. *)
Definition column (v : list Q) : matrix Q := map (fun x => [x]) v.

(** [.astype(np.uint8)] of an integer. *)
Definition uint8 (z : Z) : Z := (z mod 256)%Z.

Definition frame_uint8 (f : frame) : frame :=
  map (map (fun p => Pixel (uint8 (red p)) (uint8 (green p)) (uint8 (blue p)))) f.

(** [.astype(np.uint8)] of a boolean. *)
Definition mask_uint8 (m : list (matrix bool)) : list (matrix Z) :=
  map (map (map Z.b2z)) m.

(** The fields of one sample as the five queues hold them. *)
Record Stored : Type := MkStored {
  st_obs : obs_frame;
  st_state : list Q;
  st_action : model_action;
  st_curvature : Q;
  st_masks : list (matrix Z)
}.

(** The five queues have one length. *)
Definition aligned (d : AbstractDataset) : Prop :=
  Deque.len (state d) = Deque.len (observation d)
  /\ Deque.len (action d) = Deque.len (observation d)
  /\ Deque.len (curvature d) = Deque.len (observation d)
  /\ Deque.len (masks d) = Deque.len (observation d).

(** The four telemetry series of a record have one length. *)
Definition telemetry_aligned (r : record) : bool :=
  (length (wheels_omegas_history r) =? length (speed_history r))%nat
  && (length (angular_velocity_history r) =? length (speed_history r))%nat
  && (length (steering_joint_angle_history r) =? length (speed_history r))%nat.

(** The seven series of a record have one length. *)
Definition series_aligned (r : record) : bool :=
  telemetry_aligned r
  && (length (observation_history r) =? length (speed_history r))%nat
  && (length (action_history r) =? length (speed_history r))%nat
  && (length (curvature_history r) =? length (speed_history r))%nat.

(** Every queue of [d] is bounded by [C]. *)
Definition bounded (C : nat) (d : AbstractDataset) : Prop :=
  Deque.maxlen (observation d) = C
  /\ Deque.maxlen (state d) = C
  /\ Deque.maxlen (action d) = C
  /\ Deque.maxlen (curvature d) = C
  /\ Deque.maxlen (masks d) = C.

(** The queues of [d] hold, position by position, the fields of the last
    [C] samples of [l], in the order of [l]. *)
Definition holds_last (C : nat) (d : AbstractDataset) (l : list Stored) : Prop :=
  Deque.items (observation d) = map st_obs (lastn C l)
  /\ Deque.items (state d) = map st_state (lastn C l)
  /\ Deque.items (action d) = map st_action (lastn C l)
  /\ Deque.items (curvature d) = map st_curvature (lastn C l)
  /\ Deque.items (masks d) = map st_masks (lastn C l).

(** The dataset after the five [+=] of [append]. *)
Definition commit (d : AbstractDataset) (obs : list obs_frame) (st : matrix Q)
    (curv : list Q) (msk : list (list (matrix Z))) (act : list model_action)
  : AbstractDataset :=
  MkDataset (Deque.extend (observation d) obs)
            (Deque.extend (state d) st)
            (Deque.extend (action d) act)
            (Deque.extend (curvature d) curv)
            (Deque.extend (masks d) msk)
            (instance_weights d).

Section Pipeline.

Variable conf : Conf.

(** numpy's rounding to single precision and its standard deviation of
    the values of one row; the model leaves both open. *)
Variable float32 : Q -> Q.
Variable np_std : list Q -> Q.

(** [src.utils.balance.discretize_and_compute_balancing_weights(action,
    bins)], which is not part of [dataset.py]. *)
Variable discretize_and_compute_balancing_weights :
  list model_action -> nat -> list Q.

(** [obs[:, :84, :, :]], one frame. *)
Definition crop (f : obs_frame) : obs_frame :=
  match f with
  | RGB m => RGB (firstn 84 m)
  | Gray m => Gray (firstn 84 m)
  end.

(** [obs.mean(axis=-1, keepdims=True)], one frame. *)
Definition channel_mean (f : obs_frame) : obs_frame :=
  match f with
  | RGB m => Gray (map (map pixel_mean) m)
  | Gray m => Gray (map (map (fun x => x / 1)) m)
  end.

(** [np.transpose(obs, (0, 3, 1, 2))], one frame: the channels first. *)
Definition channels_first (f : obs_frame) : list (matrix Q) :=
  match f with
  | RGB m =>
      [ map (map (fun p => inject_Z (red p))) m;
        map (map (fun p => inject_Z (green p))) m;
        map (map (fun p => inject_Z (blue p))) m ]
  | Gray m => [m]
  end.

(** [preprocess_obs] *)
Definition preprocess_obs (obs : ndimage obs_frame) : list (list (matrix Q)) :=
  let obs := as_batch obs in
  let obs := map crop obs in
  let obs := if USE_RGB conf then obs else map channel_mean obs in
  let obs := map channels_first obs in
  map (map (map (map (normalize (OBS_MEAN conf) (OBS_STD conf))))) obs.

(** What [preprocess_input_testing] returns as [obs]: the preprocessed
    batch, or its argument. *)
Definition obs_out (do_process_obs : bool) : Type :=
  if do_process_obs then list (list (matrix Q)) else list frame.

Definition wheels_row (w : wheels) : list Q :=
  [omega0 w; omega1 w; omega2 w; omega3 w].

(** [preprocess_input_testing] *)
Definition preprocess_input_testing
    (obs : list frame) (speed : list Q) (wheels_omegas : list wheels)
    (angular_velocity steering_joint_angle : list Q) (do_process_obs : bool)
  : result (obs_out do_process_obs * matrix Q) :=
  let obs : obs_out do_process_obs :=
    match do_process_obs as b return obs_out b with
    | true => preprocess_obs (Batch (map RGB obs))
    | false => obs
    end in
  let speed := column (map (normalize (SPEED_MEAN conf) (SPEED_STD conf)) speed) in
  let wheels_omegas := map wheels_row wheels_omegas in
  let wheels_omegas_std := column (map np_std wheels_omegas) in
  let wheels_omegas_std :=
    map (map (normalize (WHEEL_OMEGA_STD_MEAN conf) (WHEEL_OMEGA_STD_STD conf)))
        wheels_omegas_std in
  let wheels_omegas :=
    map (map (normalize (WHEEL_OMEGA_MEAN conf) (WHEEL_OMEGA_STD conf)))
        wheels_omegas in
  let angular_velocity :=
    column (map (normalize (ANGULAR_VELOCITY_MEAN conf) (ANGULAR_VELOCITY_STD conf))
                angular_velocity) in
  let steering_joint_angle :=
    column (map (normalize (STEERING_JOINT_ANGLE_MEAN conf)
                           (STEERING_JOINT_ANGLE_STD conf))
                steering_joint_angle) in
  rbind (concatenate [speed; wheels_omegas; wheels_omegas_std;
                      angular_velocity; steering_joint_angle])
        (fun state => Ok (obs, state)).

Definition action_float32 (a : model_action) : model_action :=
  ModelAction (float32 (m_steer a)) (float32 (m_accel a)).

(** [preprocess_input_training]: the tuple
    [(obs, state, curvature, masks, action)]. *)
Definition preprocess_input_training
    (obs : list frame) (speed : list Q) (wheels_omegas : list wheels)
    (angular_velocity steering_joint_angle : list Q)
    (action : list gym_action) (curvature : list Q)
  : result (list frame * matrix Q * list Q * list (list (matrix Z))
            * list model_action) :=
  let curvature :=
    map (normalize (CURVATURE_MEAN conf) (CURVATURE_STD conf)) curvature in
  let masks := extract_observation_features (Batch obs) in
  rbind (preprocess_input_testing obs speed wheels_omegas angular_velocity
                                  steering_joint_angle false)
        (fun '(obs, state) =>
  rbind (convert_action_gym_to_models action)
        (fun action =>
  let action := map action_float32 action in
  Ok (map frame_uint8 obs,
      map (map float32) state,
      map float32 curvature,
      map mask_uint8 masks,
      map action_float32 action))).

(** [AbstractDataset.__init__] *)
Definition __init__ : AbstractDataset :=
  MkDataset (Deque.empty (IMITATION_MAX_MEMORY conf))
            (Deque.empty (IMITATION_MAX_MEMORY conf))
            (Deque.empty (IMITATION_MAX_MEMORY conf))
            (Deque.empty (IMITATION_MAX_MEMORY conf))
            (Deque.empty (IMITATION_MAX_MEMORY conf))
            None.

Definition iadd_observation (xs : list obs_frame) : M unit :=
  modify (fun d =>
    MkDataset (Deque.extend (observation d) xs) (state d) (action d)
              (curvature d) (masks d) (instance_weights d)).

Definition iadd_state (xs : matrix Q) : M unit :=
  modify (fun d =>
    MkDataset (observation d) (Deque.extend (state d) xs) (action d)
              (curvature d) (masks d) (instance_weights d)).

Definition iadd_curvature (xs : list Q) : M unit :=
  modify (fun d =>
    MkDataset (observation d) (state d) (action d)
              (Deque.extend (curvature d) xs) (masks d) (instance_weights d)).

Definition iadd_masks (xs : list (list (matrix Z))) : M unit :=
  modify (fun d =>
    MkDataset (observation d) (state d) (action d)
              (curvature d) (Deque.extend (masks d) xs) (instance_weights d)).

Definition iadd_action (xs : list model_action) : M unit :=
  modify (fun d =>
    MkDataset (observation d) (state d) (Deque.extend (action d) xs)
              (curvature d) (masks d) (instance_weights d)).

(** What [append] pushes on [self.observation]. *)
Definition stored_observation (obs : list frame) : list obs_frame :=
  if USE_RGB conf then map RGB obs
  else map channel_mean (map RGB obs).

(** [AbstractDataset.append] *)
Definition append (r : record) : M unit :=
  ('(obs, state, curvature, masks, action) <-
     lift (preprocess_input_training
             (observation_history r) (speed_history r)
             (wheels_omegas_history r) (angular_velocity_history r)
             (steering_joint_angle_history r) (action_history r)
             (curvature_history r)) ;;
   iadd_observation (stored_observation obs) ;;
   iadd_state state ;;
   iadd_curvature curvature ;;
   iadd_masks masks ;;
   iadd_action action)%method.

(** [AbstractDataset.recompute_weights]: the weights of the whole current
    action queue, one row per sample ([reshape(-1, 1)]), in single
    precision ([.float()]); they are stored and returned. *)
Definition recompute_weights : M (list Q) :=
  fun d =>
    let actions := Deque.items (action d) in
    let weights :=
      map float32
          (discretize_and_compute_balancing_weights
             actions (IMITATION_BALANCE_BINS conf)) in
    (Ok weights,
     MkDataset (observation d) (state d) (action d)
               (curvature d) (masks d) (Some weights)).

(** [AbstractDataset.__len__] *)
Definition __len__ (d : AbstractDataset) : nat :=
  Deque.len (observation d).

(** [self.instance_weights[idx]] *)
Definition weight_at (d : AbstractDataset) (idx : Z) : result Q :=
  match instance_weights d with
  | None => Raise AttributeError
  | Some weights => sequence_index weights idx
  end.

(** [obs.squeeze(axis=0)] of a batch of one. *)
Definition squeeze0 (obs : list (list (matrix Q))) : list (matrix Q) :=
  hd [] obs.

(** [AbstractDataset.__getitem__]: the elements of the tuple are
    evaluated from left to right, after the observation. *)
Definition __getitem__ (d : AbstractDataset) (idx : Z) : result Sample :=
  rbind (Deque.getitem (observation d) idx) (fun o =>
  let obs := squeeze0 (preprocess_obs (Single o)) in
  rbind (Deque.getitem (state d) idx) (fun s =>
  rbind (Deque.getitem (action d) idx) (fun a =>
  rbind (weight_at d idx) (fun w =>
  rbind (Deque.getitem (curvature d) idx) (fun c =>
  rbind (Deque.getitem (masks d) idx) (fun m =>
  Ok (MkSample obs s a w c m))))))).

(** *** Vocabulary of the properties *)

(** The calls [append(r)] for the records of [rs], in order, on the dataset
    [d]; a call that raises leaves the object to the next call as it is
    then. *)
Definition run_appends (d : AbstractDataset) (rs : list record)
  : AbstractDataset :=
  fold_left (fun d r => snd (append r d)) rs d.

(** What [append] pushes on [self.observation] for one frame. *)
Definition stored_frame (f : frame) : obs_frame :=
  if USE_RGB conf then RGB f else channel_mean (RGB f).

(** One row of [state] before its conversion to single precision. *)
Definition state_row (speed : Q) (w : wheels) (angular_velocity steering : Q)
  : list Q :=
  [normalize (SPEED_MEAN conf) (SPEED_STD conf) speed]
    ++ map (normalize (WHEEL_OMEGA_MEAN conf) (WHEEL_OMEGA_STD conf))
           (wheels_row w)
    ++ [normalize (WHEEL_OMEGA_STD_MEAN conf) (WHEEL_OMEGA_STD_STD conf)
                  (np_std (wheels_row w))]
    ++ [normalize (ANGULAR_VELOCITY_MEAN conf) (ANGULAR_VELOCITY_STD conf)
                  angular_velocity]
    ++ [normalize (STEERING_JOINT_ANGLE_MEAN conf)
                  (STEERING_JOINT_ANGLE_STD conf) steering].

(** The sample of timestep [k] of the record [r], as the five queues hold
    it: every field is computed from row [k] of the record's series. *)
Definition timestep (r : record) (k : nat) : Stored :=
  let f := nth k (observation_history r) [] in
  MkStored
    (stored_frame (frame_uint8 f))
    (map float32
         (state_row (nth k (speed_history r) 0)
                    (nth k (wheels_omegas_history r) (Wheels 0 0 0 0))
                    (nth k (angular_velocity_history r) 0)
                    (nth k (steering_joint_angle_history r) 0)))
    (action_float32
       (action_float32 (models_row (nth k (action_history r) (GymAction 0 0 0)))))
    (float32 (normalize (CURVATURE_MEAN conf) (CURVATURE_STD conf)
                        (nth k (curvature_history r) 0)))
    (mask_uint8
       (let g := blank_dashboard (firstn 84 f) in [chevrons g; road g])).

(** The samples of a record, timestep after timestep. *)
Definition samples (r : record) : list Stored :=
  map (timestep r) (seq 0 (length (speed_history r))).

(** The samples that the call [append(r)] processes: none when the
    assertion of the codec rejects the record. *)
Definition processed (r : record) : list Stored :=
  if existsb both_pedals (action_history r) then [] else samples r.

(** The samples of a sequence of calls, in arrival order. *)
Definition arrivals (rs : list record) : list Stored :=
  flat_map processed rs.

(** The tuple that [__getitem__] builds from a stored sample and its
    weight. *)
Definition assemble (s : Stored) (w : Q) : Sample :=
  MkSample (squeeze0 (preprocess_obs (Single (st_obs s))))
           (st_state s) (st_action s) w (st_curvature s) (st_masks s).

End Pipeline.

(* ================================================================= *)
(** ** Reading the record files *)

Module Path.

Import Ascii String.

(** [pat in s] for two strings. *)
Fixpoint contains (pat s : string) : bool :=
  match s with
  | EmptyString => prefix pat s
  | String _ s' => prefix pat s || contains pat s'
  end.

(** [".npz" in f] *)
Definition is_record_file (f : string) : bool := contains ".npz" f.

(** [s.endswith("/")] *)
Fixpoint ends_with_sep (s : string) : bool :=
  match s with
  | EmptyString => false
  | String c EmptyString => Ascii.eqb c "/"
  | String _ s' => ends_with_sep s'
  end.

(** [os.path.join(a, b)] of [posixpath]. *)
Definition join (a b : string) : string :=
  if prefix "/" b then b
  else if (a =? "")%string || ends_with_sep a then a ++ b
  else a ++ "/" ++ b.

(** One step of a sort of strings in ascending order. *)
Fixpoint insert (x : string) (l : list string) : list string :=
  match l with
  | [] => [x]
  | y :: l' => if (x <=? y)%string then x :: l else y :: insert x l'
  end.

(** [sorted(names)]: the names in ascending lexicographic order. *)
Definition sorted (names : list string) : list string :=
  fold_right insert [] names.

End Path.

(** What can end the construction of a dataset from files: an error of the
    file system or of the archive reader, a key that the archive does not
    have, or an exception of the dataset code. *)
Inductive load_exn : Type :=
| OSError
| KeyError
| Inner (e : exn).

Inductive built (A : Type) : Type :=
| Done (a : A)
| Aborted (e : load_exn).

Arguments Done {A} a.
Arguments Aborted {A} e.

(** An archive that [np.load] returned: for each of the seven keys, the
    array stored under it when the key exists. *)
Record archive : Type := Archive {
  key_observation_history : option (list frame);
  key_speed_history : option (list Q);
  key_wheels_omegas_history : option (list wheels);
  key_angular_velocity_history : option (list Q);
  key_steering_joint_angle_history : option (list Q);
  key_action_history : option (list gym_action);
  key_curvature_history : option (list Q)
}.

(** [l[::k]] for a step [k >= 1], after [skip] positions that are passed
    over. *)
Fixpoint stride_from {A : Type} (k skip : nat) (l : list A) : list A :=
  match l with
  | [] => []
  | x :: l' =>
      match skip with
      | O => x :: stride_from k (k - 1) l'
      | S skip' => stride_from k skip' l'
      end
  end.

(** [l[::rate]]: a step of zero is a [ValueError]; a negative step walks
    from the last element backwards. *)
Definition subsample {A : Type} (rate : Z) (l : list A) : result (list A) :=
  if (rate =? 0)%Z then Raise ValueError
  else if (0 <? rate)%Z then Ok (stride_from (Z.to_nat rate) 0 l)
  else Ok (stride_from (Z.to_nat (- rate)) 0 (rev l)).

(** [record[key][::rate]], one argument of the [append] call. *)
Definition sliced {A : Type} (rate : Z) (entry : option (list A))
  : built (list A) :=
  match entry with
  | None => Aborted KeyError
  | Some l =>
      match subsample rate l with
      | Ok l' => Done l'
      | Raise e => Aborted (Inner e)
      end
  end.

Definition bbind {A B : Type} (b : built A) (k : A -> built B) : built B :=
  match b with
  | Done a => k a
  | Aborted e => Aborted e
  end.

(** The seven arguments of the [append] call, evaluated in the order in
    which the call lists them. *)
Definition sliced_arguments (rate : Z) (a : archive) : built record :=
  bbind (sliced rate (key_observation_history a)) (fun obs =>
  bbind (sliced rate (key_speed_history a)) (fun speed =>
  bbind (sliced rate (key_wheels_omegas_history a)) (fun wheels_omegas =>
  bbind (sliced rate (key_angular_velocity_history a)) (fun angular_velocity =>
  bbind (sliced rate (key_steering_joint_angle_history a)) (fun steering =>
  bbind (sliced rate (key_action_history a)) (fun action =>
  bbind (sliced rate (key_curvature_history a)) (fun curvature =>
  Done (Record_ obs speed wheels_omegas angular_velocity steering
                action curvature)))))))).

Section Loading.

Variable conf : Conf.
Variable float32 : Q -> Q.
Variable np_std : list Q -> Q.
Variable discretize_and_compute_balancing_weights :
  list model_action -> nat -> list Q.

(** [conf.IMITATION_DATASET_SAMPLING_RATE] *)
Variable IMITATION_DATASET_SAMPLING_RATE : Z.

(** The file system: [os.path.islink], [os.readlink], [np.load] (nothing
    when it raises) and [os.listdir] (nothing when it raises). *)
Variable islink : String.string -> bool.
Variable readlink : String.string -> String.string.
Variable np_load : String.string -> option archive.
Variable listdir : String.string -> option (list String.string).

(** One turn of the loop of [DaggerDataset.__init__]. *)
Definition load_record (record_path : String.string) (d : AbstractDataset)
  : built AbstractDataset :=
  let record_path :=
    if islink record_path then readlink record_path else record_path in
  match np_load record_path with
  | None => Aborted OSError
  | Some record =>
      bbind (sliced_arguments IMITATION_DATASET_SAMPLING_RATE record)
            (fun r =>
               match append conf float32 np_std r d with
               | (Ok _, d') => Done d'
               | (Raise e, _) => Aborted (Inner e)
               end)
  end.

(** The loop over the record files. *)
Fixpoint load_records (record_files : list String.string) (d : AbstractDataset)
  : built AbstractDataset :=
  match record_files with
  | [] => Done d
  | record_path :: rest =>
      bbind (load_record record_path d) (load_records rest)
  end.

(** [DaggerDataset.__init__] *)
Definition DaggerDataset__init__ (record_files : list String.string)
  : built AbstractDataset :=
  let record_files := filter Path.is_record_file record_files in
  bbind (load_records record_files (__init__ conf))
        (fun d =>
           Done (snd (recompute_weights
                        conf float32 discretize_and_compute_balancing_weights
                        d))).

(** The paths that [ImitationDataset.__init__] hands to
    [DaggerDataset.__init__] for a directory listing. *)
Definition record_paths (dataset_path : String.string)
    (listing : list String.string) : list String.string :=
  let files := Path.sorted listing in
  let record_files := filter Path.is_record_file files in
  map (Path.join dataset_path) record_files.

(** [ImitationDataset.__init__] *)
Definition ImitationDataset__init__ (dataset_path : String.string)
  : built AbstractDataset :=
  match listdir dataset_path with
  | None => Aborted OSError
  | Some listing =>
      DaggerDataset__init__ (record_paths dataset_path listing)
  end.

End Loading.

(* ================================================================= *)
(** ** Further vocabulary *)

(** numpy's [==] on two gym rows. *)
Definition gym_eq (r r' : gym_action) : Prop :=
  steer r == steer r' /\ throttle r == throttle r' /\ brake r == brake r'.

(** The position [(r, c)] lies in the slice [y_min:y_max, x_min:x_max]. *)
Definition in_dashboard (r c : nat) : bool :=
  ((y_min <=? r) && (r <? y_max) && (x_min <=? c) && (c <? x_max))%nat.

(** [f[r, c]] *)
Definition pixel_at (f : frame) (r c : nat) : option pixel :=
  match nth_error f r with
  | None => None
  | Some row => nth_error row c
  end.

(** The sum of the three channels of a pixel. *)
Definition channel_sum (p : pixel) : Z := (red p + green p + blue p)%Z.

(** The three channels of a pixel are values of [np.uint8]. *)
Definition pixel_is_uint8 (p : pixel) : Prop :=
  (0 <= red p < 256)%Z /\ (0 <= green p < 256)%Z /\ (0 <= blue p < 256)%Z.

Definition frame_is_uint8 (f : frame) : Prop :=
  Forall (Forall pixel_is_uint8) f.

(** Every queue is bounded by [C] and holds at most [C] entries. *)
Definition within (C : nat) (d : AbstractDataset) : Prop :=
  bounded C d
  /\ (Deque.len (observation d) <= C)%nat
  /\ (Deque.len (state d) <= C)%nat
  /\ (Deque.len (action d) <= C)%nat
  /\ (Deque.len (curvature d) <= C)%nat
  /\ (Deque.len (masks d) <= C)%nat.

(** The entry of a key, when the archive has the key, has [n] rows. *)
Definition entry_length {A : Type} (entry : option (list A)) (n : nat) : Prop :=
  match entry with
  | Some l => length l = n
  | None => True
  end.

(** The arrays that an archive holds under the seven keys have one
    length. *)
Definition archive_aligned (a : archive) : Prop :=
  exists n,
    entry_length (key_observation_history a) n
    /\ entry_length (key_speed_history a) n
    /\ entry_length (key_wheels_omegas_history a) n
    /\ entry_length (key_angular_velocity_history a) n
    /\ entry_length (key_steering_joint_angle_history a) n
    /\ entry_length (key_action_history a) n
    /\ entry_length (key_curvature_history a) n.

(** [append] raises on the record. *)
Definition rejected (r : record) : bool :=
  negb (telemetry_aligned r) || existsb both_pedals (action_history r).

Section LoadingVocabulary.

Variable IMITATION_DATASET_SAMPLING_RATE : Z.
Variable islink : String.string -> bool.
Variable readlink : String.string -> String.string.
Variable np_load : String.string -> option archive.

(** The record that the loop of [DaggerDataset.__init__] hands to [append]
    for a file, when the file loads and has the seven keys. *)
Definition record_of (record_path : String.string) : option record :=
  match np_load (if islink record_path then readlink record_path
                 else record_path) with
  | None => None
  | Some a =>
      match sliced_arguments IMITATION_DATASET_SAMPLING_RATE a with
      | Done r => Some r
      | Aborted _ => None
      end
  end.

(** The file loads, has the seven keys, and [append] accepts its record. *)
Definition loads (record_path : String.string) : bool :=
  match record_of record_path with
  | Some r => negb (rejected r)
  | None => false
  end.

(** The records of the files that load, in the order of the files. *)
Definition records_of (record_files : list String.string) : list record :=
  flat_map (fun f => match record_of f with
                     | Some r => [r]
                     | None => []
                     end)
           record_files.

End LoadingVocabulary.

(** [a <= b] for two strings. *)
Definition string_le (a b : String.string) : Prop := String.leb a b = true.

(* ================================================================= *)
(** ** Concrete data for the examples *)

Module Sample_data.

(** Capacity 3, colour observations, normalisations that change nothing. *)
Definition conf3 : Conf :=
  Build_Conf 3 10 true 0 1 0 1 0 1 0 1 0 1 0 1 0 1.

Definition as_is (x : Q) : Q := x.

Definition no_spread (row : list Q) : Q := 0.

(** One weight per sample. *)
Definition unit_weights (actions : list model_action) (bins : nat) : list Q :=
  map (fun _ => 1) actions.

(** A frame of one pixel whose red channel is [k]. *)
Definition dot (k : Z) : frame := [[Pixel k 0 0]].

(** A record of five timesteps; timestep [k] carries [k] in every series. *)
Definition five_steps : record :=
  Record_ (map dot [0; 1; 2; 3; 4]%Z)
          [10; 11; 12; 13; 14]
          (map (fun q => Wheels q q q q) [0; 1; 2; 3; 4])
          [20; 21; 22; 23; 24]
          [30; 31; 32; 33; 34]
          (map (fun q => GymAction q 0 0) [0; 1; 2; 3; 4])
          [40; 41; 42; 43; 44].

(** A record of one timestep. *)
Definition one_step : record :=
  Record_ [dot 7] [1] [Wheels 1 1 1 1] [1] [1] [GymAction 0 1 0] [1].

(** Two frames, one row in every other series. *)
Definition two_frames : record :=
  Record_ [dot 7; dot 8] [1] [Wheels 1 1 1 1] [1] [1] [GymAction 0 1 0] [1].

(** One timestep with throttle and brake both positive. *)
Definition both_pressed : record :=
  Record_ [dot 7] [1] [Wheels 1 1 1 1] [1] [1] [GymAction 0 1 1] [1].

(** Speed of two timesteps, one row in the other telemetry series. *)
Definition two_speeds : record :=
  Record_ [dot 7] [1; 2] [Wheels 1 1 1 1] [1] [1] [GymAction 0 1 0] [1].

(** A 96 x 96 frame: black, a white block on rows 65..79 and columns
    45..51, and red markers at (10, 10) and at (80, 52). *)
Definition hud_pixel (r c : nat) : pixel :=
  if ((65 <=? r) && (r <? 80) && (45 <=? c) && (c <? 52))%nat
  then Pixel 255 255 255
  else if (((r =? 10) && (c =? 10)) || ((r =? 80) && (c =? 52)))%nat
       then Pixel 255 0 0
       else Pixel 0 0 0.

Definition hud_frame : frame :=
  map (fun r => map (hud_pixel r) (seq 0 96)) (seq 0 96).

Definition append3 : record -> M unit := append conf3 as_is no_spread.

Definition recompute3 : M (list Q) := recompute_weights conf3 as_is unit_weights.

(** [append(one_step)], [recompute_weights()]. *)
Definition served : AbstractDataset :=
  snd (recompute3 (snd (append3 one_step (__init__ conf3)))).

(** [served], then [append(one_step)] again. *)
Definition grown : AbstractDataset := snd (append3 one_step served).

(** [append(two_frames)] on the empty dataset. *)
Definition skewed : AbstractDataset := snd (append3 two_frames (__init__ conf3)).

(** A frame of one pixel that is both red and gray enough. *)
Definition both_flags : frame := [[Pixel 200 50 50]].

(** Five frames, four rows in every other series. *)
Definition uneven : record :=
  Record_ (map dot [0; 1; 2; 3; 4]%Z)
          [10; 11; 12; 13]
          (map (fun q => Wheels q q q q) [0; 1; 2; 3])
          [20; 21; 22; 23]
          [30; 31; 32; 33]
          (map (fun q => GymAction q 0 0) [0; 1; 2; 3])
          [40; 41; 42; 43].

(** [append(uneven)] on the empty dataset. *)
Definition lopsided : AbstractDataset := snd (append3 uneven (__init__ conf3)).

(** [append(five_steps)] on the empty dataset, and nothing else. *)
Definition unweighted : AbstractDataset :=
  snd (append3 five_steps (__init__ conf3)).

End Sample_data.

(* ================================================================= *)
(** ** Concrete files for the examples *)

Module Sample_files.

Import String.
Local Open Scope string_scope.

(** The archive of [Sample_data.five_steps], with its seven keys. *)
Definition five_archive : archive :=
  Archive (Some (observation_history Sample_data.five_steps))
          (Some (speed_history Sample_data.five_steps))
          (Some (wheels_omegas_history Sample_data.five_steps))
          (Some (angular_velocity_history Sample_data.five_steps))
          (Some (steering_joint_angle_history Sample_data.five_steps))
          (Some (action_history Sample_data.five_steps))
          (Some (curvature_history Sample_data.five_steps)).

(** A file system with one archive and no link. *)
Definition no_link (path : string) : bool := false.

Definition same_path (path : string) : string := path.

Definition one_archive (path : string) : option archive :=
  if path =? "run1.npz" then Some five_archive else None.

Definition two_files : list string := ["run1.npz"; "readme.txt"].

(** [DaggerDataset(two_files)] with capacity 3 and every second timestep. *)
Definition dagger3 : built AbstractDataset :=
  DaggerDataset__init__ Sample_data.conf3 Sample_data.as_is
    Sample_data.no_spread Sample_data.unit_weights 2
    no_link same_path one_archive two_files.

Definition dagger3_dataset : AbstractDataset :=
  match dagger3 with
  | Done d => d
  | Aborted _ => __init__ Sample_data.conf3
  end.

End Sample_files.

(* ================================================================= *)
(** * Properties *)

(** ** Scalars *)

Lemma Qgtb_true (x y : Q) : Qgtb x y = true <-> y < x.
Proof.
  unfold Qgtb. rewrite negb_true_iff.
  split; intro H.
  - apply Qnot_le_lt. intro Hle. apply Qle_bool_iff in Hle. congruence.
  - destruct (Qle_bool x y) eqn:E; [|reflexivity].
    apply Qle_bool_iff in E. exfalso. exact (Qlt_not_le _ _ H E).
Qed.

Lemma Qgeb_Qltb (x y : Q) : Qltb x y = negb (Qgeb x y).
Proof. reflexivity. Qed.

Lemma Qminus_zero_r (x : Q) : x - 0 = x.
Proof.
  destruct x as [n d]. unfold Qminus, Qplus, Qopp. simpl.
  f_equal; [lia | apply Pos.mul_1_r].
Qed.

Lemma Qminus_zero_opp (x : Q) : 0 - - x = x.
Proof.
  destruct x as [n d]. unfold Qminus, Qplus, Qopp. simpl.
  f_equal. lia.
Qed.

Lemma Qgtb_zero_zero : Qgtb 0 0 = false.
Proof. reflexivity. Qed.

(** ** Action codec *)

Lemma both_pedals_true (a : gym_action) :
  both_pedals a = true <-> 0 < throttle a /\ 0 < brake a.
Proof.
  unfold both_pedals. rewrite andb_true_iff, !Qgtb_true. tauto.
Qed.

Lemma both_pedals_gym_row (o : model_action) :
  both_pedals (gym_row o) = false.
Proof.
  unfold both_pedals, gym_row. cbn [throttle brake].
  rewrite Qgeb_Qltb.
  destruct (Qgeb (m_accel o) 0); cbn [negb].
  - rewrite Qgtb_zero_zero. apply andb_false_r.
  - rewrite Qgtb_zero_zero. reflexivity.
Qed.

Lemma to_gym_no_both_pedals (x : list model_action) :
  existsb both_pedals (convert_action_models_to_gym x) = false.
Proof.
  unfold convert_action_models_to_gym.
  induction x as [|o x IH]; [reflexivity|].
  cbn [map existsb]. now rewrite both_pedals_gym_row, IH.
Qed.

Lemma models_row_gym_row (o : model_action) : models_row (gym_row o) = o.
Proof.
  destruct o as [s a]. unfold models_row, gym_row.
  cbn [steer throttle brake m_steer m_accel].
  rewrite Qgeb_Qltb.
  destruct (Qgeb a 0); cbn [negb].
  - now rewrite Qminus_zero_r.
  - now rewrite Qminus_zero_opp.
Qed.

Lemma roundtrip_models (x : list model_action) :
  convert_action_gym_to_models (convert_action_models_to_gym x) = Ok x.
Proof.
  unfold convert_action_gym_to_models.
  rewrite to_gym_no_both_pedals. f_equal.
  unfold convert_action_models_to_gym. rewrite map_map.
  rewrite <- (map_id x) at 2. apply map_ext. exact models_row_gym_row.
Qed.

Lemma existsb_Exists_pedals (a : list gym_action) :
  existsb both_pedals a = true
  <-> Exists (fun r => 0 < throttle r /\ 0 < brake r) a.
Proof.
  rewrite existsb_exists, Exists_exists.
  split; intros [r [Hin H]]; exists r; split; trivial;
    now apply both_pedals_true.
Qed.

Lemma product_zero_not_both (r : gym_action) :
  throttle r * brake r == 0 -> both_pedals r = false.
Proof.
  intro H. destruct (both_pedals r) eqn:E; [|reflexivity].
  apply both_pedals_true in E. destruct E as [Ht Hb].
  exfalso. apply (Qlt_irrefl 0).
  rewrite <- H at 2.
  rewrite <- (Qmult_0_l (brake r)).
  apply Qmult_lt_compat_r; assumption.
Qed.

(** C4.  [convert_action_gym_to_models] raises the assertion's error exactly
    when some row has throttle > 0 and brake > 0; on every other batch it
    returns the rows (steer, throttle - brake). *)
Theorem C4_gym_to_models_assertion (actions : list gym_action) :
  (convert_action_gym_to_models actions = Raise AssertionError
   <-> Exists (fun r => 0 < throttle r /\ 0 < brake r) actions)
  /\ (~ Exists (fun r => 0 < throttle r /\ 0 < brake r) actions ->
      convert_action_gym_to_models actions
      = Ok (map (fun r => ModelAction (steer r) (throttle r - brake r)) actions)).
Proof.
  unfold convert_action_gym_to_models.
  pose proof (existsb_Exists_pedals actions) as Hex.
  destruct (existsb both_pedals actions).
  - split.
    + split; intros _; [now apply Hex | reflexivity].
    + intro Hn. exfalso. apply Hn. now apply Hex.
  - split.
    + split; [discriminate|]. intro H. apply Hex in H. discriminate.
    + reflexivity.
Qed.

(** C3.  Converting a batch of model rows to the gym format and back gives
    the batch again; hence, for a batch of gym rows with throttle * brake = 0
    in each row, converting to the models format, to the gym format and to
    the models format again gives the first conversion's result. *)
Theorem C3_codec_roundtrip
    (x : list model_action) (a : list gym_action)
    (Hvalid : Forall (fun r => throttle r * brake r == 0) a) :
  convert_action_gym_to_models (convert_action_models_to_gym x) = Ok x
  /\ exists m,
       convert_action_gym_to_models a = Ok m
       /\ convert_action_gym_to_models (convert_action_models_to_gym m) = Ok m.
Proof.
  split; [apply roundtrip_models|].
  exists (map models_row a). split; [|apply roundtrip_models].
  unfold convert_action_gym_to_models.
  replace (existsb both_pedals a) with false; [reflexivity|].
  symmetry. induction Hvalid as [|r a Hr _ IH]; [reflexivity|].
  cbn [existsb]. now rewrite (product_zero_not_both r Hr), IH.
Qed.

(** C10.  No row that [convert_action_models_to_gym] produces has throttle
    and brake both positive, so [convert_action_gym_to_models] applied to its
    output never raises. *)
Theorem C10_gym_rows_satisfy_precondition (x : list model_action) :
  Forall (fun r => ~ (0 < throttle r /\ 0 < brake r))
         (convert_action_models_to_gym x)
  /\ (forall e,
        convert_action_gym_to_models (convert_action_models_to_gym x)
        <> Raise e).
Proof.
  split.
  - apply Forall_forall. intros r Hin [Ht Hb].
    pose proof (to_gym_no_both_pedals x) as Hno.
    assert (Hyes : existsb both_pedals (convert_action_models_to_gym x) = true).
    { apply existsb_exists. exists r. split; [assumption|].
      now apply both_pedals_true. }
    congruence.
  - intros e. rewrite roundtrip_models. discriminate.
Qed.

(** ** Lists *)

Lemma lastn_all {A : Type} (n : nat) (l : list A) :
  (length l <= n)%nat -> lastn n l = l.
Proof.
  intro H. unfold lastn. replace (length l - n)%nat with 0%nat by lia.
  reflexivity.
Qed.

Lemma length_lastn {A : Type} (n : nat) (l : list A) :
  length (lastn n l) = Nat.min n (length l).
Proof. unfold lastn. rewrite length_skipn. lia. Qed.

Lemma lastn_map {A B : Type} (f : A -> B) (n : nat) (l : list A) :
  lastn n (map f l) = map f (lastn n l).
Proof. unfold lastn. now rewrite length_map, skipn_map. Qed.

Lemma lastn_app_lastn {A : Type} (n : nat) (l xs : list A) :
  lastn n (lastn n l ++ xs) = lastn n (l ++ xs).
Proof.
  unfold lastn. rewrite !length_app, length_skipn.
  set (k := (length l - n)%nat).
  replace (length l + length xs - n)%nat
    with ((length l - k + length xs - n) + k)%nat by lia.
  rewrite <- skipn_skipn. f_equal.
  rewrite skipn_app. replace (k - length l)%nat with 0%nat by lia.
  reflexivity.
Qed.

Lemma map_nth_seq_from {A B : Type} (f : A -> B) (d : A) (l : list A) (s : nat) :
  map f l = map (fun k => f (nth (k - s) l d)) (seq s (length l)).
Proof.
  revert s. induction l as [|x l IH]; intro s; [reflexivity|].
  cbn [length seq map]. rewrite Nat.sub_diag. cbn [nth]. f_equal.
  rewrite (IH (S s)). apply map_ext_in.
  intros k Hk. apply in_seq in Hk.
  replace (k - s)%nat with (S (k - S s)) by lia. reflexivity.
Qed.

Lemma map_nth_seq {A B : Type} (f : A -> B) (l : list A) (d : A) (n : nat) :
  length l = n ->
  map f l = map (fun k => f (nth k l d)) (seq 0 n).
Proof.
  intros <-. rewrite (map_nth_seq_from f d l 0).
  apply map_ext. intro k. now rewrite Nat.sub_0_r.
Qed.

Ltac index_cases :=
  unfold sequence_index; cbv zeta;
  repeat match goal with
         | |- context [(?a <? ?b)%Z] => destruct (Z.ltb_spec a b); try lia
         | |- context [(?a <=? ?b)%Z] => destruct (Z.leb_spec a b); try lia
         end;
  cbn [orb].

Lemma sequence_index_nat {A : Type} (l : list A) (i : nat) (d : A) :
  (i < length l)%nat -> sequence_index l (Z.of_nat i) = Ok (nth i l d).
Proof.
  intro H. index_cases. rewrite Nat2Z.id.
  now rewrite (nth_error_nth' l d H).
Qed.

Lemma sequence_index_out {A : Type} (l : list A) (i : Z) :
  (Z.of_nat (length l) <= i \/ i < - Z.of_nat (length l))%Z ->
  sequence_index l i = Raise IndexError.
Proof. intro H. index_cases; reflexivity. Qed.

Lemma sequence_index_negative {A : Type} (l : list A) (i : Z) :
  (- Z.of_nat (length l) <= i < 0)%Z ->
  sequence_index l i = sequence_index l (i + Z.of_nat (length l)).
Proof. intro H. index_cases; reflexivity. Qed.

Lemma sequence_index_in {A : Type} (l : list A) (i : Z) :
  (- Z.of_nat (length l) <= i < Z.of_nat (length l))%Z ->
  exists x, sequence_index l i = Ok x.
Proof.
  intro H.
  destruct (Z.ltb_spec i 0) as [Hneg|Hpos].
  - rewrite sequence_index_negative by lia.
    destruct l as [|d l]; [cbn in H; lia|].
    exists (nth (Z.to_nat (i + Z.of_nat (length (d :: l)))) (d :: l) d).
    rewrite <- (Z2Nat.id (i + Z.of_nat (length (d :: l)))) at 1 by lia.
    apply sequence_index_nat. lia.
  - destruct l as [|d l]; [cbn in H; lia|].
    exists (nth (Z.to_nat i) (d :: l) d).
    rewrite <- (Z2Nat.id i) at 1 by lia.
    apply sequence_index_nat. lia.
Qed.

(** ** The bounded queue *)

Lemma deque_maxlen_extend {A : Type} (xs : list A) (d : Deque.t A) :
  Deque.maxlen (Deque.extend d xs) = Deque.maxlen d.
Proof.
  unfold Deque.extend. revert d.
  induction xs as [|x xs IH]; intro d; [reflexivity|].
  cbn [fold_left]. now rewrite IH.
Qed.

Lemma deque_items_append {A : Type} (d : Deque.t A) (x : A) :
  (Deque.len d <= Deque.maxlen d)%nat ->
  Deque.items (Deque.append d x)
  = lastn (Deque.maxlen d) (Deque.items d ++ [x]).
Proof.
  unfold Deque.len, Deque.append, lastn. intro H. cbn [Deque.items].
  rewrite length_app. cbn [length].
  destruct (Nat.ltb_spec (Deque.maxlen d) (length (Deque.items d) + 1)) as [Hlt|Hge].
  - replace (length (Deque.items d) + 1 - Deque.maxlen d)%nat with 1%nat by lia.
    reflexivity.
  - replace (length (Deque.items d) + 1 - Deque.maxlen d)%nat with 0%nat by lia.
    reflexivity.
Qed.

Lemma deque_items_extend {A : Type} (xs : list A) (d : Deque.t A) :
  (Deque.len d <= Deque.maxlen d)%nat ->
  Deque.items (Deque.extend d xs)
  = lastn (Deque.maxlen d) (Deque.items d ++ xs).
Proof.
  unfold Deque.extend. revert d.
  induction xs as [|x xs IH]; intros d H.
  - cbn [fold_left]. rewrite app_nil_r. symmetry. now apply lastn_all.
  - cbn [fold_left]. rewrite IH.
    + cbn [Deque.append Deque.maxlen].
      change (lastn (Deque.maxlen d)
                (Deque.items (Deque.append d x) ++ xs)
              = lastn (Deque.maxlen d) (Deque.items d ++ x :: xs)).
      rewrite deque_items_append by assumption.
      rewrite lastn_app_lastn, <- app_assoc. reflexivity.
    + unfold Deque.len. rewrite deque_items_append by assumption.
      rewrite length_lastn. cbn [Deque.append Deque.maxlen]. lia.
Qed.

(** ** Mask extraction *)

Lemma length_assign_from {A : Type} (lo hi : nat) (g : A -> A) (l : list A) :
  forall i, length (assign_from lo hi g i l) = length l.
Proof.
  induction l as [|x l IH]; intro i; [reflexivity|].
  cbn [assign_from length]. now rewrite IH.
Qed.

Lemma nth_error_assign_from {A : Type} (lo hi : nat) (g : A -> A) (l : list A) :
  forall i k,
    nth_error (assign_from lo hi g i l) k
    = option_map
        (fun x => if (lo <=? i + k)%nat && (i + k <? hi)%nat then g x else x)
        (nth_error l k).
Proof.
  induction l as [|x l IH]; intros i k.
  - destruct k; reflexivity.
  - destruct k as [|k]; cbn [assign_from nth_error option_map].
    + now rewrite Nat.add_0_r.
    + rewrite IH. now rewrite Nat.add_succ_r.
Qed.

Lemma Forall_assign_from {A : Type} (P : A -> Prop) (lo hi : nat) (g : A -> A)
    (l : list A) :
  (forall x, P x -> P (g x)) ->
  Forall P l -> forall i, Forall P (assign_from lo hi g i l).
Proof.
  intros Hg Hl. induction Hl as [|x l Hx _ IH]; intro i; cbn [assign_from].
  - constructor.
  - constructor; [|apply IH].
    destruct ((lo <=? i)%nat && (i <? hi)%nat); auto.
Qed.

Lemma Forall_firstn_keep {A : Type} (P : A -> Prop) (n : nat) (l : list A) :
  Forall P l -> Forall P (firstn n l).
Proof.
  intro H. apply Forall_forall. intros x Hin.
  rewrite Forall_forall in H. apply H.
  rewrite <- (firstn_skipn n l). apply in_or_app. now left.
Qed.

Lemma blank_dashboard_shape (h w : nat) (f : frame) :
  matrix_shape h w f -> matrix_shape h w (blank_dashboard f).
Proof.
  intros [Hh Hw]. unfold blank_dashboard, assign_slice. split.
  - now rewrite length_assign_from.
  - apply Forall_assign_from; [|exact Hw].
    intros row Hrow. now rewrite length_assign_from.
Qed.

Lemma map_map_shape {A B : Type} (g : A -> B) (h w : nat) (m : matrix A) :
  matrix_shape h w m -> matrix_shape h w (map (map g) m).
Proof.
  intros [Hh Hw]. split; [now rewrite length_map|].
  apply Forall_map. revert Hw. apply Forall_impl.
  intros row Hrow. now rewrite length_map.
Qed.

Lemma crop_shape (w : nat) (f : frame) :
  matrix_shape 96 w f -> matrix_shape 84 w (firstn 84 f).
Proof.
  intros [Hh Hw]. split.
  - rewrite length_firstn, Hh. reflexivity.
  - now apply Forall_firstn_keep.
Qed.

(** Inside the slice [65:80, 45:52] the cropped frame holds the gray
    constant after the assignment. *)
Lemma blank_dashboard_inside (f : frame) (r c : nat) :
  matrix_shape 96 96 f ->
  (y_min <= r < y_max)%nat -> (x_min <= c < x_max)%nat ->
  exists row,
    nth_error (blank_dashboard (firstn 84 f)) r = Some row
    /\ nth_error row c = Some (Pixel 105 105 105).
Proof.
  unfold y_min, y_max, x_min, x_max. intros [Hh Hw] Hr Hc.
  destruct (nth_error f r) as [row|] eqn:Er.
  2:{ apply nth_error_None in Er. lia. }
  assert (Hrow : length row = 96%nat).
  { rewrite Forall_forall in Hw. apply Hw. eapply nth_error_In. exact Er. }
  destruct (nth_error row c) as [p|] eqn:Ec.
  2:{ apply nth_error_None in Ec. lia. }
  exists (assign_slice x_min x_max (fun _ => Pixel 105 105 105) row).
  unfold blank_dashboard, assign_slice, y_min, y_max, x_min, x_max.
  rewrite !nth_error_assign_from, nth_error_firstn.
  replace (r <? 84)%nat with true by (symmetry; apply Nat.ltb_lt; lia).
  rewrite Er, Ec. cbn [option_map Nat.add].
  replace ((65 <=? r)%nat && (r <? 80)%nat) with true.
  2:{ symmetry. apply andb_true_iff.
      split; [apply Nat.leb_le | apply Nat.ltb_lt]; lia. }
  replace ((45 <=? c)%nat && (c <? 52)%nat) with true.
  2:{ symmetry. apply andb_true_iff.
      split; [apply Nat.leb_le | apply Nat.ltb_lt]; lia. }
  split; reflexivity.
Qed.

Lemma nth_error_map_map {A B : Type} (g : A -> B) (m : matrix A) (r c : nat)
    (row : list A) (p : A) :
  nth_error m r = Some row -> nth_error row c = Some p ->
  match nth_error (map (map g) m) r with
  | None => None
  | Some row' => nth_error row' c
  end = Some (g p).
Proof.
  intros Hr Hc. rewrite nth_error_map, Hr. cbn [option_map].
  now rewrite nth_error_map, Hc.
Qed.

(** C5 (as amended).  For a frame of shape (96, 96, 3),
    [extract_observation_features] returns an array of shape
    (1, 2, 84, 96): one frame, two masks of 84 rows and 96 columns.  At
    every pixel of rows 65..79 and columns 45..51 (the slice [65:80, 45:52]
    that receives the gray constant) the marker flag is false and the road
    flag is true. *)
Theorem C5_masks_of_blanked_dashboard (f : frame)
    (Hshape : matrix_shape 96 96 f) :
  let masks := extract_observation_features (Single f) in
  shape4 masks = [1; 2; 84; 96]%nat
  /\ (exists marker surface,
        masks = [[marker; surface]]
        /\ matrix_shape 84 96 marker /\ matrix_shape 84 96 surface)
  /\ (forall r c,
        (65 <= r < 80)%nat -> (45 <= c < 52)%nat ->
        at4 masks 0 0 r c = Some false /\ at4 masks 0 1 r c = Some true).
Proof.
  intro masks.
  pose proof (blank_dashboard_shape (crop_shape Hshape)) as Hg.
  set (g := blank_dashboard (firstn 84 f)) in *.
  assert (Hm : masks = [[chevrons g; road g]]) by reflexivity.
  assert (Hch : matrix_shape 84 96 (chevrons g))
    by (apply map_map_shape; exact Hg).
  assert (Hrd : matrix_shape 84 96 (road g))
    by (apply map_map_shape; exact Hg).
  split; [|split].
  - rewrite Hm. unfold shape4. cbn [hd length].
    destruct Hch as [Hlen Hrows]. rewrite Hlen.
    destruct (chevrons g) as [|row rest]; [discriminate|].
    inversion Hrows as [|x l Hx Hl]; subst. cbn [hd]. now rewrite Hx.
  - exists (chevrons g), (road g). auto.
  - intros r c Hr Hc.
    destruct (@blank_dashboard_inside f r c Hshape Hr Hc) as [row [Er Ec]].
    fold g in Er. rewrite Hm. unfold at4. cbn [nth_error].
    split.
    + exact (nth_error_map_map (fun p => (150 <? red p)%Z) g r c Er Ec).
    + exact (nth_error_map_map
               (fun p => Qltb (Qabs (pixel_mean p - 105)) 15) g r c Er Ec).
Qed.

(** ** Preprocessing of a record *)

Lemma hstack_map {A : Type} (F G : A -> list Q) (l : list A) :
  hstack (map F l) (map G l) = map (fun k => F k ++ G k) l.
Proof.
  induction l as [|k l IH]; [reflexivity|].
  cbn [map hstack]. now rewrite IH.
Qed.

Section PipelineProperties.

Variable conf : Conf.
Variable float32 : Q -> Q.
Variable np_std : list Q -> Q.
Variable discretize_and_compute_balancing_weights :
  list model_action -> nat -> list Q.

Lemma telemetry_aligned_lengths (r : record) :
  telemetry_aligned r = true ->
  length (wheels_omegas_history r) = length (speed_history r)
  /\ length (angular_velocity_history r) = length (speed_history r)
  /\ length (steering_joint_angle_history r) = length (speed_history r).
Proof.
  unfold telemetry_aligned. rewrite !andb_true_iff, !Nat.eqb_eq. tauto.
Qed.

Lemma series_aligned_lengths (r : record) :
  series_aligned r = true ->
  telemetry_aligned r = true
  /\ length (observation_history r) = length (speed_history r)
  /\ length (action_history r) = length (speed_history r)
  /\ length (curvature_history r) = length (speed_history r).
Proof.
  unfold series_aligned. rewrite !andb_true_iff, !Nat.eqb_eq. tauto.
Qed.

(** The state matrix of a record, row by row. *)
Lemma preprocess_input_testing_rows (r : record) :
  preprocess_input_testing conf np_std
    (observation_history r) (speed_history r) (wheels_omegas_history r)
    (angular_velocity_history r) (steering_joint_angle_history r) false
  = if telemetry_aligned r
    then Ok (observation_history r,
             map (fun k =>
                    state_row conf np_std
                      (nth k (speed_history r) 0)
                      (nth k (wheels_omegas_history r) (Wheels 0 0 0 0))
                      (nth k (angular_velocity_history r) 0)
                      (nth k (steering_joint_angle_history r) 0))
                 (seq 0 (length (speed_history r))))
    else Raise ValueError.
Proof.
  unfold preprocess_input_testing, concatenate, column.
  cbn [forallb]. rewrite !length_map, andb_true_r.
  replace ((length (wheels_omegas_history r) =? length (speed_history r))%nat
           && ((length (wheels_omegas_history r) =? length (speed_history r))%nat
               && ((length (angular_velocity_history r)
                    =? length (speed_history r))%nat
                   && (length (steering_joint_angle_history r)
                       =? length (speed_history r))%nat)))
    with (telemetry_aligned r)
    by (unfold telemetry_aligned;
        destruct (length (wheels_omegas_history r) =? length (speed_history r))%nat;
        reflexivity).
  destruct (telemetry_aligned r) eqn:Hal; [|reflexivity].
  apply telemetry_aligned_lengths in Hal. destruct Hal as [Hw [Ha Hs]].
  cbn [rbind fold_left]. do 2 f_equal.
  rewrite !map_map.
  rewrite (map_nth_seq _ (speed_history r) 0 eq_refl).
  rewrite (map_nth_seq _ (wheels_omegas_history r) (Wheels 0 0 0 0) Hw).
  rewrite (map_nth_seq (fun x => map _ [np_std (wheels_row x)])
                       (wheels_omegas_history r) (Wheels 0 0 0 0) Hw).
  rewrite (map_nth_seq _ (angular_velocity_history r) 0 Ha).
  rewrite (map_nth_seq _ (steering_joint_angle_history r) 0 Hs).
  rewrite !hstack_map. apply map_ext. intro k.
  unfold state_row. cbn [map]. rewrite <- !app_assoc. reflexivity.
Qed.

Lemma stored_observation_map (obs : list frame) :
  stored_observation conf obs = map (stored_frame conf) obs.
Proof.
  unfold stored_observation, stored_frame.
  destruct (USE_RGB conf); [reflexivity|]. now rewrite map_map.
Qed.

(** What [preprocess_input_training] returns for a record: an error of the
    state concatenation, else an error of the codec, else the five
    batches. *)
Lemma preprocess_input_training_cases (r : record) :
  preprocess_input_training conf float32 np_std
    (observation_history r) (speed_history r) (wheels_omegas_history r)
    (angular_velocity_history r) (steering_joint_angle_history r)
    (action_history r) (curvature_history r)
  = if telemetry_aligned r
    then if existsb both_pedals (action_history r)
         then Raise AssertionError
         else Ok (map frame_uint8 (observation_history r),
                  map (fun k =>
                         map float32
                           (state_row conf np_std
                              (nth k (speed_history r) 0)
                              (nth k (wheels_omegas_history r) (Wheels 0 0 0 0))
                              (nth k (angular_velocity_history r) 0)
                              (nth k (steering_joint_angle_history r) 0)))
                      (seq 0 (length (speed_history r))),
                  map (fun c => float32 (normalize (CURVATURE_MEAN conf)
                                                   (CURVATURE_STD conf) c))
                      (curvature_history r),
                  map mask_uint8
                      (extract_observation_features
                         (Batch (observation_history r))),
                  map (fun a => action_float32 float32
                                  (action_float32 float32 (models_row a)))
                      (action_history r))
    else Raise ValueError.
Proof.
  unfold preprocess_input_training.
  rewrite preprocess_input_testing_rows.
  destruct (telemetry_aligned r); [|reflexivity].
  cbn [rbind]. unfold convert_action_gym_to_models.
  destruct (existsb both_pedals (action_history r)); [reflexivity|].
  cbn [rbind]. now rewrite !map_map.
Qed.

(** The three outcomes of one [append] call. *)
Lemma append_cases (r : record) (d : AbstractDataset) :
  append conf float32 np_std r d
  = if telemetry_aligned r
    then if existsb both_pedals (action_history r)
         then (Raise AssertionError, d)
         else (Ok tt,
               commit d
                 (map (stored_frame conf)
                      (map frame_uint8 (observation_history r)))
                 (map (fun k =>
                         map float32
                           (state_row conf np_std
                              (nth k (speed_history r) 0)
                              (nth k (wheels_omegas_history r) (Wheels 0 0 0 0))
                              (nth k (angular_velocity_history r) 0)
                              (nth k (steering_joint_angle_history r) 0)))
                      (seq 0 (length (speed_history r))))
                 (map (fun c => float32 (normalize (CURVATURE_MEAN conf)
                                                   (CURVATURE_STD conf) c))
                      (curvature_history r))
                 (map mask_uint8
                      (extract_observation_features
                         (Batch (observation_history r))))
                 (map (fun a => action_float32 float32
                                  (action_float32 float32 (models_row a)))
                      (action_history r)))
    else (Raise ValueError, d).
Proof.
  unfold append, bind, lift.
  rewrite preprocess_input_training_cases.
  destruct (telemetry_aligned r); [|reflexivity].
  destruct (existsb both_pedals (action_history r)); [reflexivity|].
  rewrite stored_observation_map. reflexivity.
Qed.

Lemma commit_nil (d : AbstractDataset) : commit d [] [] [] [] [] = d.
Proof. now destruct d. Qed.

(** On a record whose seven series have one length, [append] pushes the
    fields of the record's samples, timestep after timestep, or nothing. *)
Lemma append_processed (r : record) (d : AbstractDataset) :
  series_aligned r = true ->
  snd (append conf float32 np_std r d)
  = commit d
      (map st_obs (processed conf float32 np_std r))
      (map st_state (processed conf float32 np_std r))
      (map st_curvature (processed conf float32 np_std r))
      (map st_masks (processed conf float32 np_std r))
      (map st_action (processed conf float32 np_std r)).
Proof.
  intro Hal. apply series_aligned_lengths in Hal.
  destruct Hal as [Htel [Ho [Ha Hc]]].
  rewrite append_cases, Htel. unfold processed.
  destruct (existsb both_pedals (action_history r)).
  - cbn [snd map]. now rewrite commit_nil.
  - cbn [snd]. unfold samples. rewrite !map_map.
    unfold timestep. cbn [st_obs st_state st_curvature st_masks st_action].
    f_equal.
    + exact (map_nth_seq (fun x => stored_frame conf (frame_uint8 x)) _ [] Ho).
    + exact (map_nth_seq
               (fun c => float32 (normalize (CURVATURE_MEAN conf)
                                            (CURVATURE_STD conf) c))
               _ 0 Hc).
    + unfold extract_observation_features. cbn [as_batch].
      rewrite !map_map.
      exact (map_nth_seq
               (fun f => mask_uint8
                           [chevrons (blank_dashboard (firstn 84 f));
                            road (blank_dashboard (firstn 84 f))])
               _ [] Ho).
    + exact (map_nth_seq
               (fun a => action_float32 float32
                           (action_float32 float32 (models_row a)))
               _ (GymAction 0 0 0) Ha).
Qed.

Lemma extend_holds {A : Type} (f : Stored -> A) (q : Deque.t A) (C : nat)
    (pre new : list Stored) :
  Deque.maxlen q = C ->
  Deque.items q = map f (lastn C pre) ->
  Deque.items (Deque.extend q (map f new)) = map f (lastn C (pre ++ new)).
Proof.
  intros Hm Hq. rewrite deque_items_extend.
  - rewrite Hm, Hq, <- lastn_map, lastn_app_lastn, <- map_app.
    apply lastn_map.
  - unfold Deque.len. rewrite Hq, Hm, length_map, length_lastn. lia.
Qed.

Lemma commit_bounded (C : nat) (d : AbstractDataset) obs st curv msk act :
  bounded C d -> bounded C (commit d obs st curv msk act).
Proof.
  unfold bounded, commit. cbn [observation state action curvature masks].
  rewrite !deque_maxlen_extend. intros [B1 [B2 [B3 [B4 B5]]]].
  repeat split; assumption.
Qed.

Lemma append_invariant (C : nat) (r : record) (d : AbstractDataset)
    (pre : list Stored) :
  series_aligned r = true ->
  bounded C d -> holds_last C d pre ->
  bounded C (snd (append conf float32 np_std r d))
  /\ holds_last C (snd (append conf float32 np_std r d))
                 (pre ++ processed conf float32 np_std r).
Proof.
  intros Hal Hb Hh. rewrite (append_processed r d Hal).
  split; [now apply commit_bounded|].
  destruct Hb as [B1 [B2 [B3 [B4 B5]]]].
  destruct Hh as [H1 [H2 [H3 [H4 H5]]]].
  unfold holds_last, commit.
  cbn [observation state action curvature masks].
  repeat split; now apply extend_holds.
Qed.

Lemma run_appends_invariant (C : nat) (rs : list record) :
  forall (d : AbstractDataset) (pre : list Stored),
    Forall (fun r => series_aligned r = true) rs ->
    bounded C d -> holds_last C d pre ->
    bounded C (run_appends conf float32 np_std d rs)
    /\ holds_last C (run_appends conf float32 np_std d rs)
                   (pre ++ arrivals conf float32 np_std rs).
Proof.
  induction rs as [|r rs IH]; intros d pre Hrs Hb Hh.
  - cbn. rewrite app_nil_r. now split.
  - inversion Hrs as [|r' rs' Hr Hrs']; subst.
    destruct (append_invariant r Hr Hb Hh) as [Hb' Hh'].
    unfold run_appends. cbn [fold_left arrivals flat_map].
    rewrite app_assoc. now apply IH.
Qed.

Lemma init_invariant :
  bounded (IMITATION_MAX_MEMORY conf) (__init__ conf)
  /\ holds_last (IMITATION_MAX_MEMORY conf) (__init__ conf) [].
Proof.
  unfold bounded, holds_last, lastn. cbn. tauto.
Qed.

Lemma holds_last_aligned (C : nat) (d : AbstractDataset) (l : list Stored) :
  holds_last C d l -> aligned d.
Proof.
  intros [H1 [H2 [H3 [H4 H5]]]]. unfold aligned, Deque.len.
  rewrite H1, H2, H3, H4, H5, !length_map. tauto.
Qed.

Lemma sequence_index_nth_error {A : Type} (l : list A) (i : nat) (x : A) :
  nth_error l i = Some x -> sequence_index l (Z.of_nat i) = Ok x.
Proof.
  intro H.
  assert (Hi : (i < length l)%nat) by (apply nth_error_Some; congruence).
  index_cases. rewrite Nat2Z.id, H. reflexivity.
Qed.

Lemma nth_error_lastn {A : Type} (n i : nat) (l : list A) :
  nth_error (lastn n l) i = nth_error l (length l - n + i).
Proof. unfold lastn. apply nth_error_skipn. Qed.

(** ** The dataset *)

(** C1 (as amended).  Starting from the empty dataset, after each call of a
    sequence of [append] calls whose records each have seven series of one
    length, the five queues have one length. *)
Theorem C1_queues_keep_one_length (rs : list record) (k : nat)
    (Hrs : Forall (fun r => series_aligned r = true) rs) :
  aligned (run_appends conf float32 np_std (__init__ conf) (firstn k rs)).
Proof.
  assert (Hk : Forall (fun r => series_aligned r = true) (firstn k rs)).
  { apply Forall_forall. intros r Hin.
    rewrite Forall_forall in Hrs. apply Hrs.
    rewrite <- (firstn_skipn k rs). apply in_or_app. now left. }
  destruct init_invariant as [Hb Hh].
  destruct (run_appends_invariant Hk Hb Hh) as [_ Hh'].
  exact (holds_last_aligned Hh').
Qed.

(** C8.  An [append] call that raises leaves the dataset as it was before
    the call; and a record with a row in which throttle and brake are both
    positive makes the call raise. *)
Theorem C8_failing_append_commits_nothing (r : record) (d : AbstractDataset) :
  (forall e d', append conf float32 np_std r d = (Raise e, d') -> d' = d)
  /\ (Exists (fun a => 0 < throttle a /\ 0 < brake a) (action_history r) ->
      exists e, append conf float32 np_std r d = (Raise e, d)).
Proof.
  rewrite append_cases. split.
  - intros e d'.
    destruct (telemetry_aligned r);
      [destruct (existsb both_pedals (action_history r))|];
      intro H; inversion H; reflexivity.
  - intro Hex. apply existsb_Exists_pedals in Hex. rewrite Hex.
    destruct (telemetry_aligned r); eexists; reflexivity.
Qed.

(** C9 (as amended).  A record whose speed, wheel, angular-velocity and
    steering series do not have one length makes [append] raise
    [ValueError] and leaves the dataset unchanged; a record whose four
    telemetry series have one length and whose action rows pass the
    assertion is accepted, whatever the lengths of its observation, action
    and curvature series. *)
Theorem C9_only_telemetry_lengths_checked (r : record) (d : AbstractDataset) :
  (telemetry_aligned r = false ->
   append conf float32 np_std r d = (Raise ValueError, d))
  /\ (telemetry_aligned r = true ->
      existsb both_pedals (action_history r) = false ->
      fst (append conf float32 np_std r d) = Ok tt).
Proof.
  rewrite append_cases. split.
  - intros ->. reflexivity.
  - intros -> ->. reflexivity.
Qed.

Lemma getitem_assemble (d : AbstractDataset) (i : nat) (s : Stored) (w : Q)
    (ws : list Q) :
  nth_error (Deque.items (observation d)) i = Some (st_obs s) ->
  nth_error (Deque.items (state d)) i = Some (st_state s) ->
  nth_error (Deque.items (action d)) i = Some (st_action s) ->
  nth_error (Deque.items (curvature d)) i = Some (st_curvature s) ->
  nth_error (Deque.items (masks d)) i = Some (st_masks s) ->
  instance_weights d = Some ws ->
  nth_error ws i = Some w ->
  __getitem__ conf d (Z.of_nat i) = Ok (assemble conf s w).
Proof.
  intros Ho Hs Ha Hc Hm Hws Hw.
  unfold __getitem__, weight_at, Deque.getitem. rewrite Hws.
  rewrite (sequence_index_nth_error _ _ Ho). cbn [rbind].
  rewrite (sequence_index_nth_error _ _ Hs). cbn [rbind].
  rewrite (sequence_index_nth_error _ _ Ha). cbn [rbind].
  rewrite (sequence_index_nth_error _ _ Hw). cbn [rbind].
  rewrite (sequence_index_nth_error _ _ Hc). cbn [rbind].
  rewrite (sequence_index_nth_error _ _ Hm). cbn [rbind].
  reflexivity.
Qed.

(** C2 (as amended).  When the records of a sequence of [append] calls,
    each with seven series of one length, bring more samples than the
    capacity [C], the dataset then has size [C] and its queues hold the
    fields of the last [C] samples in arrival order; after
    [recompute_weights], with a balancing function that returns one weight
    per action, [get(i)] returns the sample that arrived at position
    [total - C + i], with the weight computed at position [i].  For one
    record of 5 timesteps and [C = 3], [get(0)] is then the sample of
    timestep 2. *)
Theorem C2_capacity_keeps_latest (rs : list record)
    (Hrs : Forall (fun r => series_aligned r = true) rs)
    (Hweights : forall a bins,
        length (discretize_and_compute_balancing_weights a bins) = length a)
    (Hfull : (IMITATION_MAX_MEMORY conf
              < length (arrivals conf float32 np_std rs))%nat) :
  let C := IMITATION_MAX_MEMORY conf in
  let total := length (arrivals conf float32 np_std rs) in
  let d := run_appends conf float32 np_std (__init__ conf) rs in
  __len__ d = C
  /\ holds_last C d (arrivals conf float32 np_std rs)
  /\ exists ws d',
       recompute_weights conf float32
         discretize_and_compute_balancing_weights d = (Ok ws, d')
       /\ forall i, (i < C)%nat ->
            exists s w,
              nth_error (arrivals conf float32 np_std rs) (total - C + i)
              = Some s
              /\ nth_error ws i = Some w
              /\ __getitem__ conf d' (Z.of_nat i) = Ok (assemble conf s w).
Proof.
  intros C total d.
  destruct init_invariant as [Hb Hh].
  destruct (run_appends_invariant Hrs Hb Hh) as [_ Hlast].
  cbn [app] in Hlast. fold C d in Hlast.
  assert (Hlen : length (lastn C (arrivals conf float32 np_std rs)) = C).
  { rewrite length_lastn. fold total. unfold C, total in *. lia. }
  destruct Hlast as [Ho [Hs [Ha [Hc Hm]]]].
  split; [|split].
  - unfold __len__, Deque.len. now rewrite Ho, length_map.
  - unfold holds_last. tauto.
  - eexists. eexists. split; [reflexivity|].
    intros i Hi.
    destruct (nth_error (lastn C (arrivals conf float32 np_std rs)) i)
      as [s|] eqn:Es.
    2:{ apply nth_error_None in Es. lia. }
    assert (Hwi : (i < length
                      (map float32
                         (discretize_and_compute_balancing_weights
                            (Deque.items (action d))
                            (IMITATION_BALANCE_BINS conf))))%nat).
    { rewrite length_map, Hweights, Ha, length_map, Hlen. exact Hi. }
    apply nth_error_Some in Hwi.
    destruct (nth_error
                (map float32
                   (discretize_and_compute_balancing_weights
                      (Deque.items (action d))
                      (IMITATION_BALANCE_BINS conf))) i) as [w|] eqn:Ew;
      [|congruence].
    exists s, w. split; [|split].
    + rewrite <- Es. rewrite nth_error_lastn. reflexivity.
    + first [exact Ew | reflexivity].
    + apply getitem_assemble
        with (ws := map float32
                      (discretize_and_compute_balancing_weights
                         (Deque.items (action d))
                         (IMITATION_BALANCE_BINS conf)));
        cbn [observation state action curvature masks instance_weights];
        try reflexivity; try exact Ew.
      * rewrite Ho. now rewrite nth_error_map, Es.
      * rewrite Hs. now rewrite nth_error_map, Es.
      * rewrite Ha. now rewrite nth_error_map, Es.
      * rewrite Hc. now rewrite nth_error_map, Es.
      * rewrite Hm. now rewrite nth_error_map, Es.
Qed.

Lemma getitem_out_of_range (d : AbstractDataset) (i : Z) :
  (Z.of_nat (__len__ d) <= i \/ i < - Z.of_nat (__len__ d))%Z ->
  __getitem__ conf d i = Raise IndexError.
Proof.
  intro H. unfold __getitem__, Deque.getitem.
  now rewrite (@sequence_index_out _ _ i H).
Qed.

(** The lookups of [__getitem__] before the weight succeed on an aligned
    dataset at an index in [-n <= i < n]. *)
Lemma getitem_in_range (d : AbstractDataset) (i : Z) :
  aligned d ->
  (- Z.of_nat (__len__ d) <= i < Z.of_nat (__len__ d))%Z ->
  exists o s a c m,
    __getitem__ conf d i
    = rbind (weight_at d i)
            (fun w => Ok (MkSample (squeeze0 (preprocess_obs conf (Single o)))
                                   s a w c m)).
Proof.
  intros [Hs [Ha [Hc Hm]]] Hi.
  unfold __len__, Deque.len in *.
  destruct (@sequence_index_in _ (Deque.items (observation d)) i Hi) as [o Eo].
  destruct (@sequence_index_in _ (Deque.items (state d)) i) as [s Es];
    [rewrite Hs; exact Hi|].
  destruct (@sequence_index_in _ (Deque.items (action d)) i) as [a Ea];
    [rewrite Ha; exact Hi|].
  destruct (@sequence_index_in _ (Deque.items (curvature d)) i) as [c Ec];
    [rewrite Hc; exact Hi|].
  destruct (@sequence_index_in _ (Deque.items (masks d)) i) as [m Em];
    [rewrite Hm; exact Hi|].
  exists o, s, a, c, m.
  unfold __getitem__, Deque.getitem.
  rewrite Eo, Es, Ea. cbn [rbind].
  destruct (weight_at d i); cbn [rbind]; [|reflexivity].
  now rewrite Ec, Em.
Qed.

(** C6 (as amended).  With [n] the size of the dataset, [get(i)] raises
    [IndexError] when [i >= n] or [i < -n].  When the five queues have one
    length and the weights, if they were computed, are as many, [get(i)]
    does not raise [IndexError] for [-n <= i < n], and a negative [i] reads
    position [n + i]. *)
Theorem C6_getitem_index_error (d : AbstractDataset) (i : Z) :
  let n := Z.of_nat (__len__ d) in
  ((n <= i \/ i < - n)%Z -> __getitem__ conf d i = Raise IndexError)
  /\ ((- n <= i < n)%Z ->
      aligned d ->
      (forall ws, instance_weights d = Some ws -> length ws = __len__ d) ->
      __getitem__ conf d i <> Raise IndexError
      /\ ((i < 0)%Z -> __getitem__ conf d i = __getitem__ conf d (i + n))).
Proof.
  intro n. split; [apply getitem_out_of_range|].
  intros Hi Hal Hws. split.
  - destruct (@getitem_in_range d i Hal Hi) as [o [s [a [c [m E]]]]].
    rewrite E. unfold weight_at.
    destruct (instance_weights d) as [ws|] eqn:Ew; [|discriminate].
    destruct (@sequence_index_in _ ws i) as [w Ew'].
    { rewrite (Hws ws eq_refl). exact Hi. }
    rewrite Ew'. discriminate.
  - intro Hneg. destruct Hal as [Hs [Ha [Hc Hm]]].
    unfold __getitem__, weight_at, Deque.getitem.
    unfold n, __len__, Deque.len in *.
    rewrite (@sequence_index_negative _ (Deque.items (observation d)) i)
      by lia.
    rewrite (@sequence_index_negative _ (Deque.items (state d)) i)
      by (rewrite Hs; lia).
    rewrite (@sequence_index_negative _ (Deque.items (action d)) i)
      by (rewrite Ha; lia).
    rewrite (@sequence_index_negative _ (Deque.items (curvature d)) i)
      by (rewrite Hc; lia).
    rewrite (@sequence_index_negative _ (Deque.items (masks d)) i)
      by (rewrite Hm; lia).
    rewrite Hs, Ha, Hc, Hm.
    destruct (instance_weights d) as [ws|] eqn:Ew; [|reflexivity].
    rewrite (@sequence_index_negative _ ws i)
      by (rewrite (Hws ws eq_refl); lia).
    rewrite (Hws ws eq_refl). reflexivity.
Qed.

(** C7 (as amended).  On a dataset whose five queues have one length and
    whose weights were never computed, [get(i)] raises [AttributeError] for
    every index [0 <= i < n]. *)
Theorem C7_getitem_before_weights (d : AbstractDataset) (i : Z)
    (Hnever : instance_weights d = None)
    (Haligned : aligned d)
    (Hrange : (0 <= i < Z.of_nat (__len__ d))%Z) :
  __getitem__ conf d i = Raise AttributeError.
Proof.
  destruct (@getitem_in_range d i Haligned) as [o [s [a [c [m E]]]]]; [lia|].
  rewrite E. unfold weight_at. now rewrite Hnever.
Qed.

End PipelineProperties.

(* ================================================================= *)
(** * Examples *)

Import Sample_data.

(** ** Witnesses *)

Lemma C3_codec_roundtrip_witness :
  Forall (fun r => throttle r * brake r == 0) [GymAction 1 (1 # 2) 0]
  /\ convert_action_gym_to_models
       (convert_action_models_to_gym [ModelAction 1 (- (1 # 2))])
     = Ok [ModelAction 1 (- (1 # 2))].
Proof.
  assert (H : Forall (fun r => throttle r * brake r == 0)
                     [GymAction 1 (1 # 2) 0]).
  { constructor; [reflexivity | constructor]. }
  split; [exact H|].
  exact (proj1 (C3_codec_roundtrip [ModelAction 1 (- (1 # 2))] H)).
Defined.

Lemma C4_gym_to_models_assertion_witness :
  convert_action_gym_to_models [GymAction 0 1 0; GymAction 1 0 (1 # 2)]
  = Ok [ModelAction 0 (1 - 0); ModelAction 1 (0 - (1 # 2))].
Proof.
  apply (proj2 (C4_gym_to_models_assertion
                  [GymAction 0 1 0; GymAction 1 0 (1 # 2)])).
  intro H. apply (proj2 (existsb_Exists_pedals _)) in H. discriminate H.
Defined.

Lemma C1_queues_keep_one_length_witness :
  Forall (fun r => series_aligned r = true) [five_steps; both_pressed]
  /\ aligned (run_appends conf3 as_is no_spread (__init__ conf3)
                          (firstn 2 [five_steps; both_pressed])).
Proof.
  assert (H : Forall (fun r => series_aligned r = true)
                     [five_steps; both_pressed]).
  { repeat constructor. }
  split; [exact H|].
  exact (C1_queues_keep_one_length conf3 as_is no_spread 2 H).
Defined.

Lemma C2_capacity_keeps_latest_witness :
  let d := run_appends conf3 as_is no_spread (__init__ conf3) [five_steps] in
  (IMITATION_MAX_MEMORY conf3 = 3)%nat
  /\ length (samples conf3 as_is no_spread five_steps) = 5%nat
  /\ __len__ d = 3%nat
  /\ exists w,
       __getitem__ conf3 (snd (recompute3 d)) 0
       = Ok (assemble conf3 (timestep conf3 as_is no_spread five_steps 2) w).
Proof.
  intro d.
  assert (Hrs : Forall (fun r => series_aligned r = true) [five_steps])
    by (repeat constructor).
  assert (Hweights : forall a bins, length (unit_weights a bins) = length a)
    by (intros a bins; apply length_map).
  assert (Hfull : (IMITATION_MAX_MEMORY conf3
                   < length (arrivals conf3 as_is no_spread [five_steps]))%nat)
    by (vm_compute; lia).
  destruct (@C2_capacity_keeps_latest conf3 as_is no_spread unit_weights
              [five_steps] Hrs Hweights Hfull)
    as [Hlen [_ [ws [d' [Hrec Hget]]]]].
  split; [reflexivity|]. split; [reflexivity|]. split; [exact Hlen|].
  destruct (Hget 0%nat) as [s [w [Hs [_ Hg]]]]; [vm_compute; lia|].
  exists w.
  change (recompute3 d) with
    (recompute_weights conf3 as_is unit_weights
       (run_appends conf3 as_is no_spread (__init__ conf3) [five_steps])).
  rewrite Hrec. cbn [snd].
  replace (timestep conf3 as_is no_spread five_steps 2) with s; [exact Hg|].
  assert (Hs' : nth_error (arrivals conf3 as_is no_spread [five_steps]) 2
                = Some (timestep conf3 as_is no_spread five_steps 2))
    by reflexivity.
  change (length (arrivals conf3 as_is no_spread [five_steps])
          - IMITATION_MAX_MEMORY conf3 + 0)%nat with 2%nat in Hs.
  congruence.
Defined.

Lemma hud_frame_shape : matrix_shape 96 96 hud_frame.
Proof.
  unfold hud_frame. split.
  - now rewrite length_map, length_seq.
  - apply Forall_map. apply Forall_forall. intros r _.
    now rewrite length_map, length_seq.
Qed.

Lemma C5_masks_of_blanked_dashboard_witness :
  matrix_shape 96 96 hud_frame
  /\ at4 (extract_observation_features (Single hud_frame)) 0 0 70 48 = Some false
  /\ at4 (extract_observation_features (Single hud_frame)) 0 1 70 48 = Some true.
Proof.
  split; [exact hud_frame_shape|].
  apply (proj2 (proj2 (@C5_masks_of_blanked_dashboard hud_frame hud_frame_shape)));
    lia.
Defined.

Ltac decide_order :=
  vm_compute; repeat split;
  first [reflexivity | let H := fresh in intro H; discriminate H].

Lemma served_aligned : aligned served.
Proof. repeat split. Qed.

Lemma C6_getitem_index_error_witness :
  __len__ served = 1%nat
  /\ __getitem__ conf3 served 1 = Raise IndexError
  /\ __getitem__ conf3 served (-1) <> Raise IndexError.
Proof.
  split; [reflexivity|]. split.
  - apply (proj1 (C6_getitem_index_error conf3 served 1)).
    left. decide_order.
  - apply (proj2 (C6_getitem_index_error conf3 served (-1))).
    + decide_order.
    + exact served_aligned.
    + intros ws H. vm_compute in H. injection H as <-. reflexivity.
Defined.

Lemma C7_getitem_before_weights_witness :
  let d := snd (append3 five_steps (__init__ conf3)) in
  instance_weights d = None
  /\ __len__ d = 3%nat
  /\ __getitem__ conf3 d 0 = Raise AttributeError.
Proof.
  intro d. split; [reflexivity|]. split; [reflexivity|].
  apply (@C7_getitem_before_weights conf3 d 0).
  - reflexivity.
  - repeat split.
  - decide_order.
Defined.

Lemma C8_failing_append_commits_nothing_witness :
  exists e, append3 both_pressed served = (Raise e, served).
Proof.
  apply (proj2 (C8_failing_append_commits_nothing
                  conf3 as_is no_spread both_pressed served)).
  constructor. split; reflexivity.
Defined.

Lemma C9_only_telemetry_lengths_checked_witness :
  telemetry_aligned two_speeds = false
  /\ append3 two_speeds served = (Raise ValueError, served).
Proof.
  split; [reflexivity|].
  apply (proj1 (C9_only_telemetry_lengths_checked
                  conf3 as_is no_spread two_speeds served)).
  reflexivity.
Defined.

(** ** Counterexamples *)

(** C1 as stated: a record of two frames and one row in every other series
    is accepted; afterwards the observation queue holds two entries and the
    other four queues hold one. *)
Lemma C1_counterexample :
  fst (append3 two_frames (__init__ conf3)) = Ok tt
  /\ Deque.len (observation skewed) = 2%nat
  /\ Deque.len (state skewed) = 1%nat
  /\ Deque.len (action skewed) = 1%nat
  /\ Deque.len (curvature skewed) = 1%nat
  /\ Deque.len (masks skewed) = 2%nat
  /\ ~ aligned skewed.
Proof.
  repeat (split; [reflexivity|]).
  intros [H _]. vm_compute in H. discriminate H.
Qed.

(** C2 as stated: a record of five frames and four rows in every other
    series is accepted by a dataset of capacity 3; the size is then 3, the
    observation queue holds frames 2, 3, 4 and the other queues the rows of
    timesteps 1, 2, 3, so that [get(0)], once the weights are computed,
    returns frame 2 with the curvature of timestep 1: the queues do not hold
    the last three samples.  And straight after the [append] of a record of
    five timesteps, without [recompute_weights], [get(0)] raises
    [AttributeError]. *)
Lemma C2_counterexample :
  (fst (append3 uneven (__init__ conf3)) = Ok tt
   /\ __len__ lopsided = 3%nat
   /\ Deque.items (observation lopsided)
      = [RGB (dot 2); RGB (dot 3); RGB (dot 4)]
   /\ Deque.items (curvature lopsided) = [41; 42; 43]
   /\ (exists s,
         __getitem__ conf3 (snd (recompute3 lopsided)) 0 = Ok s
         /\ s_obs s = [[[2]]; [[0]]; [[0]]]
         /\ s_curvature s = 41)
   /\ ~ holds_last 3 lopsided (arrivals conf3 as_is no_spread [uneven]))
  /\ (__len__ unweighted = 3%nat
      /\ __getitem__ conf3 unweighted 0 = Raise AttributeError).
Proof.
  split.
  - split; [reflexivity|]. split; [reflexivity|].
    split; [reflexivity|]. split; [reflexivity|]. split.
    + eexists. split; [reflexivity|]. split; reflexivity.
    + intros [Ho _]. vm_compute in Ho. discriminate Ho.
  - split; reflexivity.
Qed.

(** C5 as stated: the result has four axes, the road flag of a blanked
    pixel is true, and the pixel (80, 52) is not blanked. *)
Lemma C5_counterexample :
  let masks := extract_observation_features (Single hud_frame) in
  shape4 masks = [1; 2; 84; 96]%nat
  /\ at4 masks 0 0 65 45 = Some false
  /\ at4 masks 0 1 65 45 = Some true
  /\ at4 masks 0 0 80 52 = Some true
  /\ ~ (forall r c,
          (65 <= r < 80)%nat -> (45 <= c < 52)%nat ->
          at4 masks 0 0 r c = Some false /\ at4 masks 0 1 r c = Some false).
Proof.
  intro masks.
  assert (H1 : at4 masks 0 1 65 45 = Some true) by (vm_compute; reflexivity).
  split; [vm_compute; reflexivity|].
  split; [vm_compute; reflexivity|].
  split; [exact H1|].
  split; [vm_compute; reflexivity|].
  intro H. destruct (H 65%nat 45%nat) as [_ H2]; [lia | lia |].
  rewrite H1 in H2. discriminate H2.
Qed.

(** C6 as stated: on a dataset of size 1 with its weights, [get(-1)] returns
    the sample of position 0; on a dataset of size 2 whose weights were
    computed at size 1, [get(1)] raises [IndexError]. *)
Lemma C6_counterexample :
  (__len__ served = 1%nat
   /\ exists s, __getitem__ conf3 served (-1) = Ok s
                /\ __getitem__ conf3 served 0 = Ok s)
  /\ (__len__ grown = 2%nat
      /\ aligned grown
      /\ __getitem__ conf3 grown 1 = Raise IndexError).
Proof.
  split.
  - split; [reflexivity|]. eexists. split; reflexivity.
  - split; [reflexivity|]. split; [repeat split | reflexivity].
Qed.

(** C7 as stated: after a record of two frames and one row in every other
    series, the size is 2, the weights were never computed, and [get(1)]
    raises [IndexError] at [self.state[1]]. *)
Lemma C7_counterexample :
  instance_weights skewed = None
  /\ __len__ skewed = 2%nat
  /\ __getitem__ conf3 skewed 1 = Raise IndexError
  /\ __getitem__ conf3 skewed 1 <> Raise AttributeError.
Proof.
  repeat (split; [reflexivity|]). discriminate.
Qed.

(** C9 as stated: the series of [two_frames] do not have one length, and
    [append] returns normally and commits: two observations and two masks,
    one state, one action, one curvature. *)
Lemma C9_counterexample :
  series_aligned two_frames = false
  /\ length (observation_history two_frames) = 2%nat
  /\ length (action_history two_frames) = 1%nat
  /\ append3 two_frames (__init__ conf3) = (Ok tt, skewed)
  /\ Deque.len (observation skewed) = 2%nat
  /\ Deque.len (action skewed) = 1%nat.
Proof.
  repeat (split; [reflexivity|]). reflexivity.
Qed.

(* ================================================================= *)
(** * Further properties *)

(** ** Action codec *)

Lemma Qgeb_true (x y : Q) : Qgeb x y = true <-> y <= x.
Proof. unfold Qgeb. apply Qle_bool_iff. Qed.

Lemma Qgeb_false (x y : Q) : Qgeb x y = false <-> x < y.
Proof.
  pose proof (Qgeb_true x y) as H.
  destruct (Qgeb x y); split; intro H'; try discriminate; try reflexivity.
  - exfalso. apply (Qlt_not_le _ _ H'). now apply H.
  - apply Qnot_le_lt. intro Hle. apply H in Hle. discriminate.
Qed.

Lemma gym_row_range (o : model_action) :
  steer (gym_row o) = m_steer o
  /\ 0 <= throttle (gym_row o)
  /\ 0 <= brake (gym_row o)
  /\ (throttle (gym_row o) = 0 \/ brake (gym_row o) = 0)
  /\ throttle (gym_row o) - brake (gym_row o) = m_accel o.
Proof.
  pose proof (models_row_gym_row o) as Hback.
  unfold models_row in Hback.
  split; [reflexivity|].
  split; [|split; [|split]].
  - unfold gym_row. cbn [throttle].
    destruct (Qgeb (m_accel o) 0) eqn:E; [now apply Qgeb_true|apply Qle_refl].
  - unfold gym_row. cbn [brake]. rewrite Qgeb_Qltb.
    destruct (Qgeb (m_accel o) 0) eqn:E; cbn [negb]; [apply Qle_refl|].
    apply Qgeb_false in E. lra.
  - unfold gym_row. cbn [throttle brake]. rewrite Qgeb_Qltb.
    destruct (Qgeb (m_accel o) 0); cbn [negb]; auto.
  - exact (f_equal m_accel Hback).
Qed.

(** X1.  Every row that [convert_action_models_to_gym] produces keeps the
    steering, has a throttle and a brake that are not negative and of which
    one is zero, and throttle minus brake is the acceleration it came from;
    the batch keeps its length. *)
Theorem X1_gym_rows_in_range (outputs : list model_action) :
  length (convert_action_models_to_gym outputs) = length outputs
  /\ Forall2 (fun o r =>
                steer r = m_steer o
                /\ 0 <= throttle r /\ 0 <= brake r
                /\ (throttle r = 0 \/ brake r = 0)
                /\ throttle r - brake r = m_accel o)
             outputs (convert_action_models_to_gym outputs).
Proof.
  unfold convert_action_models_to_gym. split; [apply length_map|].
  induction outputs as [|o outputs IH]; cbn [map]; constructor.
  - apply gym_row_range.
  - exact IH.
Qed.

Lemma gym_row_models_row (r : gym_action) :
  both_pedals r = false ->
  (gym_eq (gym_row (models_row r)) r <-> 0 <= throttle r /\ 0 <= brake r).
Proof.
  intro Hno.
  assert (Hnot : ~ (0 < throttle r /\ 0 < brake r)).
  { intro H. apply both_pedals_true in H. congruence. }
  destruct (gym_row_range (models_row r)) as [_ [Ht [Hb _]]].
  unfold gym_eq. split.
  - intros [_ [Et Eb]]. rewrite <- Et, <- Eb. now split.
  - intros [Ht0 Hb0].
    unfold gym_row, models_row.
    cbn [steer throttle brake m_steer m_accel].
    rewrite Qgeb_Qltb.
    destruct (Qgeb (throttle r - brake r) 0) eqn:E; cbn [negb].
    + apply Qgeb_true in E.
      split; [reflexivity|].
      destruct (Qlt_le_dec 0 (brake r)) as [Hpos|Hle].
      * exfalso. apply Hnot. split; [lra | exact Hpos].
      * split; lra.
    + apply Qgeb_false in E.
      split; [reflexivity|].
      destruct (Qlt_le_dec 0 (throttle r)) as [Hpos|Hle].
      * exfalso. apply Hnot. split; [exact Hpos | lra].
      * split; lra.
Qed.

(** X2.  For a batch that [convert_action_gym_to_models] accepts, converting
    the result back with [convert_action_models_to_gym] gives rows equal to
    the original ones exactly when no original row has a negative throttle
    or brake. *)
Theorem X2_gym_roundtrip_iff_nonnegative
    (actions : list gym_action) (m : list model_action)
    (Haccepted : convert_action_gym_to_models actions = Ok m) :
  Forall2 gym_eq (convert_action_models_to_gym m) actions
  <-> Forall (fun r => 0 <= throttle r /\ 0 <= brake r) actions.
Proof.
  unfold convert_action_gym_to_models in Haccepted.
  destruct (existsb both_pedals actions) eqn:E; [discriminate|].
  inversion Haccepted as [Hm]. clear Haccepted Hm m.
  unfold convert_action_models_to_gym.
  induction actions as [|r actions IH].
  - split; constructor.
  - cbn [existsb] in E. apply orb_false_iff in E. destruct E as [Er Ea].
    cbn [map]. split; intro H; inversion H; subst; constructor.
    + now apply (gym_row_models_row r Er).
    + now apply IH.
    + now apply (gym_row_models_row r Er).
    + now apply IH.
Qed.

(** ** Mask extraction on any batch *)

Lemma Qltb_true_iff (x y : Q) : Qltb x y = true <-> x < y.
Proof. unfold Qltb. exact (Qgtb_true y x). Qed.

Lemma road_flag_sum (p : pixel) :
  Qltb (Qabs (pixel_mean p - 105)) 15
  = ((270 <? channel_sum p) && (channel_sum p <? 360))%Z.
Proof.
  unfold pixel_mean. fold (channel_sum p). set (s := channel_sum p).
  assert (Hiff : Qabs (inject_Z s / 3 - 105) < 15 <-> (270 < s < 360)%Z).
  { rewrite Qabs_Qlt_condition.
    rewrite (Zlt_Qlt 270 s), (Zlt_Qlt s 360).
    change (inject_Z 270) with 270. change (inject_Z 360) with 360.
    unfold Qdiv. change (/ 3) with (1 # 3).
    generalize (inject_Z s). intro q.
    split; intros [H1 H2]; split; lra. }
  destruct (Qltb (Qabs (inject_Z s / 3 - 105)) 15) eqn:E.
  - apply Qltb_true_iff in E. apply Hiff in E. symmetry.
    apply andb_true_iff. split; apply Z.ltb_lt; lia.
  - symmetry. apply not_true_is_false. intro H.
    apply andb_true_iff in H. destruct H as [H1 H2].
    apply Z.ltb_lt in H1. apply Z.ltb_lt in H2.
    assert (Hq : Qabs (inject_Z s / 3 - 105) < 15) by (apply Hiff; lia).
    apply Qltb_true_iff in Hq. congruence.
Qed.

Lemma in_dashboard_split (r c : nat) :
  in_dashboard r c
  = (((y_min <=? r) && (r <? y_max)) && ((x_min <=? c) && (c <? x_max)))%nat.
Proof. unfold in_dashboard. now rewrite !andb_assoc. Qed.

(** The pixel at [(r, c)] of a frame after the crop and the assignment. *)
Lemma pixel_at_blank_dashboard (f : frame) (r c : nat) :
  pixel_at (blank_dashboard (firstn 84 f)) r c
  = if (r <? 84)%nat
    then option_map
           (fun p => if in_dashboard r c then Pixel 105 105 105 else p)
           (pixel_at f r c)
    else None.
Proof.
  unfold pixel_at, blank_dashboard, assign_slice.
  rewrite nth_error_assign_from, nth_error_firstn. cbn [Nat.add].
  destruct (r <? 84)%nat; [|reflexivity].
  destruct (nth_error f r) as [row|]; [|reflexivity].
  cbn [option_map]. rewrite in_dashboard_split.
  destruct ((y_min <=? r)%nat && (r <? y_max)%nat).
  - rewrite nth_error_assign_from. cbn [Nat.add andb].
    destruct (nth_error row c); reflexivity.
  - cbn [andb]. destruct (nth_error row c); reflexivity.
Qed.

Lemma pixel_at_map_map {B : Type} (g : pixel -> B) (f : frame) (r c : nat) :
  match nth_error (map (map g) f) r with
  | None => None
  | Some row => nth_error row c
  end = option_map g (pixel_at f r c).
Proof.
  unfold pixel_at. rewrite nth_error_map.
  destruct (nth_error f r) as [row|]; [|reflexivity].
  cbn [option_map]. apply nth_error_map.
Qed.

Lemma at4_map {A B : Type} (F : A -> list (matrix B)) (l : list A)
    (n ch r c : nat) (x : A) :
  nth_error l n = Some x ->
  at4 (map F l) n ch r c
  = match nth_error (F x) ch with
    | None => None
    | Some m =>
        match nth_error m r with
        | None => None
        | Some row => nth_error row c
        end
    end.
Proof. intro H. unfold at4. now rewrite nth_error_map, H. Qed.

Lemma masks_pointwise (image : ndimage frame) (n r c : nat) (f : frame)
    (Hframe : nth_error (as_batch image) n = Some f) :
  at4 (extract_observation_features image) n 0 r c
  = (if (r <? 84)%nat
     then option_map
            (fun p => if in_dashboard r c then false else (150 <? red p)%Z)
            (pixel_at f r c)
     else None)
  /\ at4 (extract_observation_features image) n 1 r c
     = (if (r <? 84)%nat
        then option_map
               (fun p => if in_dashboard r c then true
                         else ((270 <? channel_sum p)
                               && (channel_sum p <? 360))%Z)
               (pixel_at f r c)
        else None).
Proof.
  unfold extract_observation_features. rewrite !map_map.
  erewrite !at4_map by exact Hframe.
  cbn [nth_error]. unfold chevrons, road.
  rewrite !pixel_at_map_map, pixel_at_blank_dashboard.
  destruct (r <? 84)%nat; [|split; reflexivity].
  destruct (pixel_at f r c) as [p|]; [|split; reflexivity].
  cbn [option_map]. destruct (in_dashboard r c).
  - split; reflexivity.
  - split; [reflexivity|]. now rewrite road_flag_sum.
Qed.

Lemma crop_shape_any (h w : nat) (f : frame) :
  matrix_shape h w f -> matrix_shape (Nat.min 84 h) w (firstn 84 f).
Proof.
  intros [Hh Hw]. split.
  - now rewrite length_firstn, Hh.
  - now apply Forall_firstn_keep.
Qed.

(** X3.  For a batch of frames, [extract_observation_features] returns one
    entry per frame; the entry of a frame of [h] rows and [w] columns holds
    two masks of [min 84 h] rows and [w] columns.  At a position of the
    frame the masks give: nothing from row 84 on; inside the slice
    [65:80, 45:52] marker false and road true; elsewhere marker true exactly
    when the red channel exceeds 150 and road true exactly when the sum of
    the three channels lies strictly between 270 and 360. *)
Theorem X3_masks_shape_and_flags
    (image : ndimage frame) (n r c h w : nat) (f : frame)
    (Hframe : nth_error (as_batch image) n = Some f)
    (Hshape : matrix_shape h w f) :
  length (extract_observation_features image) = length (as_batch image)
  /\ (exists marker surface,
        nth_error (extract_observation_features image) n
        = Some [marker; surface]
        /\ matrix_shape (Nat.min 84 h) w marker
        /\ matrix_shape (Nat.min 84 h) w surface)
  /\ at4 (extract_observation_features image) n 0 r c
     = (if (r <? 84)%nat
        then option_map
               (fun p => if in_dashboard r c then false else (150 <? red p)%Z)
               (pixel_at f r c)
        else None)
  /\ at4 (extract_observation_features image) n 1 r c
     = (if (r <? 84)%nat
        then option_map
               (fun p => if in_dashboard r c then true
                         else ((270 <? channel_sum p)
                               && (channel_sum p <? 360))%Z)
               (pixel_at f r c)
        else None).
Proof.
  split; [|split].
  - unfold extract_observation_features. now rewrite !length_map.
  - pose proof (blank_dashboard_shape (crop_shape_any Hshape)) as Hg.
    exists (chevrons (blank_dashboard (firstn 84 f))),
           (road (blank_dashboard (firstn 84 f))).
    split; [|split].
    + unfold extract_observation_features. rewrite !map_map.
      exact (map_nth_error _ n (as_batch image) Hframe).
    + apply map_map_shape. exact Hg.
    + apply map_map_shape. exact Hg.
  - exact (masks_pointwise image n r c Hframe).
Qed.

(** X4.  The two masks are not disjoint: at a position of a frame of the
    batch both flags are true exactly when the position is in the first 84 rows and
    outside the slice [65:80, 45:52] and its pixel has a red channel above
    150 and a channel sum strictly between 270 and 360. *)
Theorem X4_masks_overlap (image : ndimage frame) (n r c : nat) (f : frame)
    (Hframe : nth_error (as_batch image) n = Some f) :
  (at4 (extract_observation_features image) n 0 r c = Some true
   /\ at4 (extract_observation_features image) n 1 r c = Some true)
  <-> (r < 84)%nat
      /\ in_dashboard r c = false
      /\ exists p, pixel_at f r c = Some p
                   /\ (150 < red p)%Z
                   /\ (270 < channel_sum p < 360)%Z.
Proof.
  destruct (masks_pointwise image n r c Hframe) as [-> ->].
  destruct (Nat.ltb_spec r 84) as [Hr|Hr].
  2:{ split; [intros [H _]; discriminate H | intros [H _]; lia]. }
  destruct (pixel_at f r c) as [p|]; cbn [option_map].
  2:{ split; [intros [H _]; discriminate H
             | intros [_ [_ [p [H _]]]]; discriminate H]. }
  destruct (in_dashboard r c).
  - split; [intros [H _]; discriminate H | intros [_ [H _]]; discriminate H].
  - split.
    + intros [H1 H2]. injection H1 as H1. injection H2 as H2.
      apply Z.ltb_lt in H1. apply andb_true_iff in H2.
      destruct H2 as [H2 H3]. apply Z.ltb_lt in H2. apply Z.ltb_lt in H3.
      split; [exact Hr|]. split; [reflexivity|].
      exists p. repeat split; assumption.
    + intros [_ [_ [p' [Hp [H1 [H2 H3]]]]]]. injection Hp as <-.
      split; f_equal.
      * now apply Z.ltb_lt.
      * apply andb_true_iff. split; now apply Z.ltb_lt.
Qed.

(** ** Observations *)

Lemma Qdiv_one (x : Q) : x / 1 = x.
Proof.
  destruct x as [n d]. unfold Qdiv, Qmult, Qinv. cbn [Qnum Qden].
  f_equal; [apply Z.mul_1_r | apply Pos.mul_1_r].
Qed.

Lemma frame_uint8_id (f : frame) : frame_is_uint8 f -> frame_uint8 f = f.
Proof.
  unfold frame_is_uint8, frame_uint8. intro H.
  induction H as [|row f Hrow _ IH]; [reflexivity|].
  cbn [map]. rewrite IH. f_equal.
  induction Hrow as [|p row Hp _ IHrow]; [reflexivity|].
  cbn [map]. rewrite IHrow. f_equal.
  destruct p as [r g b]. destruct Hp as [Hr [Hg Hb]]. cbn in Hr, Hg, Hb.
  unfold uint8. cbn [red green blue].
  now rewrite !Z.mod_small by assumption.
Qed.

Section ObservationProperties.

Variable conf : Conf.
Variable float32 : Q -> Q.
Variable np_std : list Q -> Q.

(** The stored observation read back through [preprocess_obs] is the raw
    frame through [preprocess_obs]. *)
Lemma preprocess_obs_stored (f : frame) :
  preprocess_obs conf (Single (stored_frame conf f))
  = preprocess_obs conf (Single (RGB f)).
Proof.
  unfold preprocess_obs, stored_frame. cbn [as_batch map].
  destruct (USE_RGB conf); [reflexivity|].
  cbn [map channel_mean crop channels_first].
  do 3 f_equal.
  rewrite firstn_map, map_map. apply map_ext. intro row.
  rewrite map_map. apply map_ext. intro p. apply Qdiv_one.
Qed.

(** A batch is preprocessed frame by frame. *)
Lemma preprocess_obs_batch (l : list obs_frame) :
  preprocess_obs conf (Batch l)
  = map (fun x => squeeze0 (preprocess_obs conf (Single x))) l.
Proof.
  unfold preprocess_obs. cbn [as_batch].
  destruct (USE_RGB conf); rewrite !map_map; apply map_ext; reflexivity.
Qed.

(** With [do_process_obs] set, the state is the one computed without it and
    the observation is [preprocess_obs] of the batch. *)
Lemma preprocess_input_testing_true (obs : list frame) (speed : list Q)
    (wheels_omegas : list wheels) (angular_velocity steering : list Q) :
  preprocess_input_testing conf np_std obs speed wheels_omegas
    angular_velocity steering true
  = rbind (preprocess_input_testing conf np_std obs speed wheels_omegas
             angular_velocity steering false)
          (fun p => Ok (preprocess_obs conf (Batch (map RGB obs)), snd p)).
Proof.
  unfold preprocess_input_testing.
  destruct (concatenate _); reflexivity.
Qed.

(** X5.  For a record with telemetry series of one length and frames that
    hold [np.uint8] values, [preprocess_input_testing] with
    [do_process_obs] set succeeds, and its observation number [k] is the
    observation of the tuple that [__getitem__] builds from the stored
    sample of timestep [k]: training reads what inference computes. *)
Theorem X5_observation_as_at_inference (r : record) (k : nat) (w : Q)
    (Htelemetry : telemetry_aligned r = true)
    (Huint8 : Forall frame_is_uint8 (observation_history r))
    (Hk : (k < length (observation_history r))%nat) :
  exists obs st,
    preprocess_input_testing conf np_std
      (observation_history r) (speed_history r) (wheels_omegas_history r)
      (angular_velocity_history r) (steering_joint_angle_history r) true
    = Ok (obs, st)
    /\ nth_error obs k
       = Some (s_obs (assemble conf (timestep conf float32 np_std r k) w)).
Proof.
  assert (Hf : frame_is_uint8 (nth k (observation_history r) [])).
  { rewrite Forall_forall in Huint8. apply Huint8. now apply nth_In. }
  rewrite preprocess_input_testing_true, preprocess_input_testing_rows.
  rewrite Htelemetry. cbn [rbind snd].
  eexists. eexists. split; [reflexivity|].
  rewrite preprocess_obs_batch, map_map.
  rewrite (map_nth_error _ k (observation_history r)
             (nth_error_nth' (observation_history r) [] Hk)).
  unfold assemble, timestep. cbn [s_obs st_obs].
  now rewrite (frame_uint8_id Hf), preprocess_obs_stored.
Qed.

(** X6.  [preprocess_obs] of one colour frame of [h] rows and [w] columns
    returns a batch of one array with three channels when [USE_RGB] is set
    and one channel otherwise, each of [min 84 h] rows and [w] columns. *)
Theorem X6_preprocess_obs_shape (f : frame) (h w : nat)
    (Hshape : matrix_shape h w f) :
  exists channels,
    preprocess_obs conf (Single (RGB f)) = [channels]
    /\ length channels = (if USE_RGB conf then 3 else 1)%nat
    /\ Forall (matrix_shape (Nat.min 84 h) w) channels.
Proof.
  pose proof (crop_shape_any Hshape) as Hc.
  unfold preprocess_obs. cbn [as_batch map crop].
  destruct (USE_RGB conf); cbn [map channel_mean channels_first];
    eexists; (split; [reflexivity|]); (split; [reflexivity|]).
  - repeat (apply Forall_cons;
            [apply map_map_shape; apply map_map_shape; exact Hc|]).
    apply Forall_nil.
  - apply Forall_cons; [|apply Forall_nil].
    apply map_map_shape. apply map_map_shape. exact Hc.
Qed.

End ObservationProperties.

(** ** Telemetry and the training tuple *)

Section TelemetryProperties.

Variable conf : Conf.
Variable float32 : Q -> Q.
Variable np_std : list Q -> Q.

(** X7.  [preprocess_input_testing], with or without [do_process_obs],
    raises [ValueError] when the four telemetry series do not have one
    length; otherwise its state has one row per timestep, of eight values:
    speed, the four wheel speeds, their standard deviation, the angular
    velocity and the steering angle, each normalised with its own mean and
    standard deviation. *)
Theorem X7_state_matrix (r : record) (do_process_obs : bool) :
  rbind (preprocess_input_testing conf np_std
           (observation_history r) (speed_history r) (wheels_omegas_history r)
           (angular_velocity_history r) (steering_joint_angle_history r)
           do_process_obs)
        (fun p => Ok (snd p))
  = if telemetry_aligned r
    then Ok (map (fun k =>
                    let w := nth k (wheels_omegas_history r) (Wheels 0 0 0 0) in
                    [ normalize (SPEED_MEAN conf) (SPEED_STD conf)
                                (nth k (speed_history r) 0);
                      normalize (WHEEL_OMEGA_MEAN conf) (WHEEL_OMEGA_STD conf)
                                (omega0 w);
                      normalize (WHEEL_OMEGA_MEAN conf) (WHEEL_OMEGA_STD conf)
                                (omega1 w);
                      normalize (WHEEL_OMEGA_MEAN conf) (WHEEL_OMEGA_STD conf)
                                (omega2 w);
                      normalize (WHEEL_OMEGA_MEAN conf) (WHEEL_OMEGA_STD conf)
                                (omega3 w);
                      normalize (WHEEL_OMEGA_STD_MEAN conf)
                                (WHEEL_OMEGA_STD_STD conf)
                                (np_std [omega0 w; omega1 w; omega2 w; omega3 w]);
                      normalize (ANGULAR_VELOCITY_MEAN conf)
                                (ANGULAR_VELOCITY_STD conf)
                                (nth k (angular_velocity_history r) 0);
                      normalize (STEERING_JOINT_ANGLE_MEAN conf)
                                (STEERING_JOINT_ANGLE_STD conf)
                                (nth k (steering_joint_angle_history r) 0) ])
                 (seq 0 (length (speed_history r))))
    else Raise ValueError.
Proof.
  assert (H : rbind (preprocess_input_testing conf np_std
                       (observation_history r) (speed_history r)
                       (wheels_omegas_history r) (angular_velocity_history r)
                       (steering_joint_angle_history r) do_process_obs)
                    (fun p => Ok (snd p))
              = rbind (preprocess_input_testing conf np_std
                         (observation_history r) (speed_history r)
                         (wheels_omegas_history r) (angular_velocity_history r)
                         (steering_joint_angle_history r) false)
                      (fun p => Ok (snd p))).
  { destruct do_process_obs; [|reflexivity].
    rewrite preprocess_input_testing_true.
    destruct (preprocess_input_testing _ _ _ _ _ _ _ false); reflexivity. }
  rewrite H, preprocess_input_testing_rows.
  destruct (telemetry_aligned r); reflexivity.
Qed.

(** X8.  [preprocess_input_training] raises [ValueError] when the
    telemetry series do not have one length, also when an action row has
    both pedals positive; with telemetry of one length it raises
    [AssertionError] on such a row; otherwise it returns five batches, each
    with as many rows as the series it comes from: observation and masks as
    the frames, state as the speed, curvature as the curvature, action as
    the actions. *)
Theorem X8_training_tuple (r : record) :
  let out :=
    preprocess_input_training conf float32 np_std
      (observation_history r) (speed_history r) (wheels_omegas_history r)
      (angular_velocity_history r) (steering_joint_angle_history r)
      (action_history r) (curvature_history r) in
  (telemetry_aligned r = false -> out = Raise ValueError)
  /\ (telemetry_aligned r = true ->
      existsb both_pedals (action_history r) = true ->
      out = Raise AssertionError)
  /\ (telemetry_aligned r = true ->
      existsb both_pedals (action_history r) = false ->
      exists obs st curv msk act,
        out = Ok (obs, st, curv, msk, act)
        /\ length obs = length (observation_history r)
        /\ length msk = length (observation_history r)
        /\ length st = length (speed_history r)
        /\ length curv = length (curvature_history r)
        /\ length act = length (action_history r)).
Proof.
  intro out. unfold out. rewrite preprocess_input_training_cases.
  split; [|split].
  - intros ->. reflexivity.
  - intros -> ->. reflexivity.
  - intros -> ->. do 5 eexists. split; [reflexivity|].
    unfold extract_observation_features. cbn [as_batch].
    now rewrite !length_map, length_seq.
Qed.

End TelemetryProperties.

(** ** The dataset under any sequence of calls *)

Lemma deque_len_extend_bound {A : Type} (q : Deque.t A) (xs : list A) :
  (Deque.len q <= Deque.maxlen q)%nat ->
  (Deque.len (Deque.extend q xs) <= Deque.maxlen q)%nat.
Proof.
  intro H. unfold Deque.len at 1.
  rewrite (@deque_items_extend _ xs q H), length_lastn. lia.
Qed.

Lemma getitem_weight (conf : Conf) (d : AbstractDataset) (i : Z) (s : Sample) :
  __getitem__ conf d i = Ok s -> weight_at d i = Ok (s_weight s).
Proof.
  unfold __getitem__.
  destruct (Deque.getitem (observation d) i); [|discriminate].
  destruct (Deque.getitem (state d) i); [|discriminate].
  destruct (Deque.getitem (action d) i); [|discriminate].
  cbn [rbind]. destruct (weight_at d i) as [w|]; [|discriminate].
  destruct (Deque.getitem (curvature d) i); [|discriminate].
  destruct (Deque.getitem (masks d) i); [|discriminate].
  cbn [rbind]. intro H. injection H as <-. reflexivity.
Qed.

Section DatasetProperties.

Variable conf : Conf.
Variable float32 : Q -> Q.
Variable np_std : list Q -> Q.
Variable discretize_and_compute_balancing_weights :
  list model_action -> nat -> list Q.

Lemma commit_within (C : nat) (d : AbstractDataset) obs st curv msk act :
  within C d -> within C (commit d obs st curv msk act).
Proof.
  intros [Hb [H1 [H2 [H3 [H4 H5]]]]].
  split; [now apply commit_bounded|].
  destruct Hb as [B1 [B2 [B3 [B4 B5]]]].
  unfold commit. cbn [observation state action curvature masks].
  pose proof (@deque_len_extend_bound _ (observation d) obs) as E1.
  pose proof (@deque_len_extend_bound _ (state d) st) as E2.
  pose proof (@deque_len_extend_bound _ (action d) act) as E3.
  pose proof (@deque_len_extend_bound _ (curvature d) curv) as E4.
  pose proof (@deque_len_extend_bound _ (masks d) msk) as E5.
  rewrite B1 in E1. rewrite B2 in E2. rewrite B3 in E3.
  rewrite B4 in E4. rewrite B5 in E5.
  repeat split; auto.
Qed.

Lemma append_within (C : nat) (r : record) (d : AbstractDataset) :
  within C d -> within C (snd (append conf float32 np_std r d)).
Proof.
  intro H. rewrite append_cases.
  destruct (telemetry_aligned r); [|exact H].
  destruct (existsb both_pedals (action_history r)); [exact H|].
  cbn [snd]. now apply commit_within.
Qed.

(** X9.  Whatever the records, after any sequence of [append] calls on the
    empty dataset none of the five queues holds more than
    [IMITATION_MAX_MEMORY] entries. *)
Theorem X9_never_above_capacity (rs : list record) :
  let d := run_appends conf float32 np_std (__init__ conf) rs in
  let C := IMITATION_MAX_MEMORY conf in
  (Deque.len (observation d) <= C)%nat
  /\ (Deque.len (state d) <= C)%nat
  /\ (Deque.len (action d) <= C)%nat
  /\ (Deque.len (curvature d) <= C)%nat
  /\ (Deque.len (masks d) <= C)%nat.
Proof.
  intros d C.
  assert (H : within C d).
  { unfold d, run_appends.
    assert (H0 : within C (__init__ conf)).
    { unfold within, bounded, C. cbn. repeat split; lia. }
    revert H0. generalize (__init__ conf).
    induction rs as [|r rs' IH]; intros d0 H0; [exact H0|].
    cbn [fold_left]. apply IH. now apply append_within. }
  destruct H as [_ H]. exact H.
Qed.

(** X10.  For records whose seven series have one length, the size of the
    dataset after the calls is the smaller of [IMITATION_MAX_MEMORY] and the
    number of samples brought; as long as that number does not exceed the
    capacity nothing is evicted: the five queues hold the fields of all the
    samples in arrival order. *)
Theorem X10_no_eviction_below_capacity (rs : list record)
    (Hrs : Forall (fun r => series_aligned r = true) rs) :
  let d := run_appends conf float32 np_std (__init__ conf) rs in
  let C := IMITATION_MAX_MEMORY conf in
  let all := arrivals conf float32 np_std rs in
  __len__ d = Nat.min C (length all)
  /\ ((length all <= C)%nat ->
      Deque.items (observation d) = map st_obs all
      /\ Deque.items (state d) = map st_state all
      /\ Deque.items (action d) = map st_action all
      /\ Deque.items (curvature d) = map st_curvature all
      /\ Deque.items (masks d) = map st_masks all).
Proof.
  intros d C all.
  destruct (init_invariant conf) as [Hb Hh].
  destruct (run_appends_invariant conf float32 np_std Hrs Hb Hh) as [_ Hlast].
  cbn [app] in Hlast. fold C d all in Hlast.
  destruct Hlast as [Ho [Hs [Ha [Hc Hm]]]].
  split.
  - unfold __len__, Deque.len. now rewrite Ho, length_map, length_lastn.
  - intro Hle. rewrite (@lastn_all _ C all Hle) in Ho, Hs, Ha, Hc, Hm.
    repeat split; assumption.
Qed.

(** X11.  [append] never touches the weights: the attribute
    [instance_weights] is after the call what it was before, so a tuple that
    [__getitem__] returns after the call carries the weight that the same
    index had before the call, whatever sample the index now holds. *)
Theorem X11_append_keeps_old_weights (r : record) (d : AbstractDataset) :
  instance_weights (snd (append conf float32 np_std r d)) = instance_weights d
  /\ forall i s,
       __getitem__ conf (snd (append conf float32 np_std r d)) i = Ok s ->
       weight_at d i = Ok (s_weight s).
Proof.
  assert (H : instance_weights (snd (append conf float32 np_std r d))
              = instance_weights d).
  { rewrite append_cases.
    destruct (telemetry_aligned r); [|reflexivity].
    destruct (existsb both_pedals (action_history r)); reflexivity. }
  split; [exact H|].
  intros i s Hget. apply getitem_weight in Hget.
  unfold weight_at in *. now rewrite H in Hget.
Qed.

(** X12.  When the weights were computed for fewer samples than the five
    queues, all of one length, now hold, [get(i)] raises [IndexError] for
    every index from the number of weights up to the size. *)
Theorem X12_stale_weights_index_error (d : AbstractDataset) (ws : list Q)
    (i : Z)
    (Haligned : aligned d)
    (Hweights : instance_weights d = Some ws)
    (Hrange : (Z.of_nat (length ws) <= i < Z.of_nat (__len__ d))%Z) :
  __getitem__ conf d i = Raise IndexError.
Proof.
  destruct (@getitem_in_range conf d i Haligned) as [o [s [a [c [m E]]]]];
    [lia|].
  rewrite E. unfold weight_at. rewrite Hweights.
  rewrite (@sequence_index_out _ ws i) by lia. reflexivity.
Qed.

(** X13.  After [recompute_weights] on a dataset whose five queues have one
    length [n], with a balancing function that returns one weight per
    action, there are [n] weights and [get(i)] returns a tuple for every
    [-n <= i < n], with the weight of that index. *)
Theorem X13_ready_after_recompute (d : AbstractDataset) (i : Z)
    (Hone : forall a bins,
        length (discretize_and_compute_balancing_weights a bins) = length a)
    (Haligned : aligned d)
    (Hrange : (- Z.of_nat (__len__ d) <= i < Z.of_nat (__len__ d))%Z) :
  exists ws d',
    recompute_weights conf float32 discretize_and_compute_balancing_weights d
    = (Ok ws, d')
    /\ length ws = __len__ d
    /\ __len__ d' = __len__ d
    /\ exists s, __getitem__ conf d' i = Ok s
                 /\ sequence_index ws i = Ok (s_weight s).
Proof.
  eexists. eexists. split; [reflexivity|].
  set (ws := map float32
               (discretize_and_compute_balancing_weights
                  (Deque.items (action d)) (IMITATION_BALANCE_BINS conf))).
  set (d' := MkDataset (observation d) (state d) (action d) (curvature d)
                       (masks d) (Some ws)).
  assert (Hlen : length ws = __len__ d).
  { unfold ws. rewrite length_map, Hone.
    destruct Haligned as [_ [Ha _]]. exact Ha. }
  split; [exact Hlen|]. split; [reflexivity|].
  assert (Hal' : aligned d') by exact Haligned.
  destruct (@getitem_in_range conf d' i Hal' Hrange) as [o [s [a [c [m E]]]]].
  destruct (@sequence_index_in _ ws i) as [w Ew]; [rewrite Hlen; exact Hrange|].
  exists (MkSample (squeeze0 (preprocess_obs conf (Single o))) s a w c m).
  rewrite E. unfold weight_at. cbn [instance_weights d' rbind s_weight].
  rewrite Ew. split; reflexivity.
Qed.

End DatasetProperties.

(** ** Subsampling *)

Lemma nth_error_stride_from {A : Type} (k : nat) (l : list A) :
  (1 <= k)%nat ->
  forall skip i,
    nth_error (stride_from k skip l) i = nth_error l (skip + i * k).
Proof.
  intro Hk. induction l as [|x l IH]; intros skip i.
  - cbn [stride_from]. now rewrite !nth_error_nil.
  - destruct skip as [|skip]; cbn [stride_from].
    + destruct i as [|i]; [reflexivity|].
      cbn [nth_error]. rewrite IH.
      replace (0 + S i * k)%nat with (S (k - 1 + i * k)) by nia.
      reflexivity.
    + rewrite IH. reflexivity.
Qed.

Lemma length_stride_from {A B : Type} (k : nat) (l : list A) :
  forall (l' : list B) skip,
    length l = length l' ->
    length (stride_from k skip l) = length (stride_from k skip l').
Proof.
  induction l as [|x l IH]; intros [|y l'] skip H; try discriminate H.
  - reflexivity.
  - injection H as H. destruct skip; cbn [stride_from length]; auto.
Qed.

Lemma length_subsample {A B : Type} (rate : Z) (l : list A) (l' : list B)
    (s : list A) (s' : list B) :
  length l = length l' ->
  subsample rate l = Ok s -> subsample rate l' = Ok s' ->
  length s = length s'.
Proof.
  unfold subsample. intros H.
  destruct (rate =? 0)%Z; [discriminate|].
  destruct (0 <? rate)%Z; intros E E'; injection E as <-; injection E' as <-.
  - now apply length_stride_from.
  - apply length_stride_from. now rewrite !length_rev.
Qed.

(** X14.  [l[::rate]] raises [ValueError] for a step of zero; for a positive
    step its element [i] is element [i * rate] of [l], so the first element
    is kept and the length is that of the positions [i * rate] below
    [len(l)]; for a negative step the same holds of [l] reversed. *)
Theorem X14_subsample_positions {A : Type} (rate : Z) (l : list A) :
  (rate = 0%Z -> subsample rate l = Raise ValueError)
  /\ ((0 < rate)%Z ->
      exists s,
        subsample rate l = Ok s
        /\ (forall i, nth_error s i = nth_error l (i * Z.to_nat rate))
        /\ (forall i, (i < length s)%nat
                      <-> (i * Z.to_nat rate < length l)%nat))
  /\ ((rate < 0)%Z ->
      exists s,
        subsample rate l = Ok s
        /\ (forall i,
              nth_error s i = nth_error (rev l) (i * Z.to_nat (- rate)))).
Proof.
  unfold subsample. split; [|split].
  - intros ->. reflexivity.
  - intro H.
    replace (rate =? 0)%Z with false by (symmetry; apply Z.eqb_neq; lia).
    replace (0 <? rate)%Z with true by (symmetry; apply Z.ltb_lt; lia).
    eexists. split; [reflexivity|].
    assert (Hnth : forall i,
               nth_error (stride_from (Z.to_nat rate) 0 l) i
               = nth_error l (i * Z.to_nat rate)).
    { intro i. rewrite nth_error_stride_from by lia. reflexivity. }
    split; [exact Hnth|].
    intro i. rewrite <- !nth_error_Some, Hnth. reflexivity.
  - intro H.
    replace (rate =? 0)%Z with false by (symmetry; apply Z.eqb_neq; lia).
    replace (0 <? rate)%Z with false by (symmetry; apply Z.ltb_ge; lia).
    eexists. split; [reflexivity|].
    intro i. rewrite nth_error_stride_from by lia. reflexivity.
Qed.

Lemma sliced_length {A B : Type} (rate : Z) (e : option (list A))
    (e' : option (list B)) (n : nat) (s : list A) (s' : list B) :
  entry_length e n -> entry_length e' n ->
  sliced rate e = Done s -> sliced rate e' = Done s' ->
  length s = length s'.
Proof.
  unfold sliced, entry_length.
  destruct e as [l|]; [|discriminate]. destruct e' as [l'|]; [|discriminate].
  intros Hl Hl'.
  destruct (subsample rate l) as [t|] eqn:E; [|discriminate].
  destruct (subsample rate l') as [t'|] eqn:E'; [|discriminate].
  intros H H'. injection H as <-. injection H' as <-.
  apply (length_subsample rate l l'); congruence.
Qed.

(** Slicing the seven arrays of an archive with one step keeps them in
    step. *)
Lemma sliced_arguments_aligned (rate : Z) (a : archive) (r : record)
    (Haligned : archive_aligned a)
    (Hsliced : sliced_arguments rate a = Done r) :
  series_aligned r = true.
Proof.
  destruct Haligned as [n [H1 [H2 [H3 [H4 [H5 [H6 H7]]]]]]].
  unfold sliced_arguments in Hsliced.
  destruct (sliced rate (key_observation_history a)) as [o|] eqn:E1;
    [|discriminate].
  destruct (sliced rate (key_speed_history a)) as [sp|] eqn:E2;
    [|discriminate].
  destruct (sliced rate (key_wheels_omegas_history a)) as [wh|] eqn:E3;
    [|discriminate].
  destruct (sliced rate (key_angular_velocity_history a)) as [av|] eqn:E4;
    [|discriminate].
  destruct (sliced rate (key_steering_joint_angle_history a)) as [st|] eqn:E5;
    [|discriminate].
  destruct (sliced rate (key_action_history a)) as [ac|] eqn:E6;
    [|discriminate].
  destruct (sliced rate (key_curvature_history a)) as [cu|] eqn:E7;
    [|discriminate].
  cbn [bbind] in Hsliced. injection Hsliced as <-.
  unfold series_aligned, telemetry_aligned.
  cbn [observation_history speed_history wheels_omegas_history
       angular_velocity_history steering_joint_angle_history
       action_history curvature_history].
  rewrite (@sliced_length _ _ rate _ _ n _ _ H3 H2 E3 E2).
  rewrite (@sliced_length _ _ rate _ _ n _ _ H4 H2 E4 E2).
  rewrite (@sliced_length _ _ rate _ _ n _ _ H5 H2 E5 E2).
  rewrite (@sliced_length _ _ rate _ _ n _ _ H1 H2 E1 E2).
  rewrite (@sliced_length _ _ rate _ _ n _ _ H6 H2 E6 E2).
  rewrite (@sliced_length _ _ rate _ _ n _ _ H7 H2 E7 E2).
  now rewrite !Nat.eqb_refl.
Qed.

(** ** Building a dataset from files *)

Section LoadingProperties.

Variable conf : Conf.
Variable float32 : Q -> Q.
Variable np_std : list Q -> Q.
Variable discretize_and_compute_balancing_weights :
  list model_action -> nat -> list Q.
Variable IMITATION_DATASET_SAMPLING_RATE : Z.
Variable islink : String.string -> bool.
Variable readlink : String.string -> String.string.
Variable np_load : String.string -> option archive.

Local Abbreviation load_record' :=
  (load_record conf float32 np_std IMITATION_DATASET_SAMPLING_RATE
               islink readlink np_load).
Local Abbreviation load_records' :=
  (load_records conf float32 np_std IMITATION_DATASET_SAMPLING_RATE
                islink readlink np_load).
Local Abbreviation record_of' :=
  (record_of IMITATION_DATASET_SAMPLING_RATE islink readlink np_load).
Local Abbreviation loads' :=
  (loads IMITATION_DATASET_SAMPLING_RATE islink readlink np_load).
Local Abbreviation records_of' :=
  (records_of IMITATION_DATASET_SAMPLING_RATE islink readlink np_load).
Local Abbreviation dagger' :=
  (DaggerDataset__init__ conf float32 np_std
     discretize_and_compute_balancing_weights
     IMITATION_DATASET_SAMPLING_RATE islink readlink np_load).

(** One turn of the loop: the dataset after [append] when the file loads,
    no dataset otherwise. *)
Lemma load_record_cases (f : String.string) (d : AbstractDataset) :
  (loads' f = true ->
   exists r, record_of' f = Some r
             /\ load_record' f d = Done (snd (append conf float32 np_std r d)))
  /\ (loads' f = false -> exists e, load_record' f d = Aborted e).
Proof.
  unfold loads, record_of, load_record.
  destruct (np_load _) as [a|].
  2:{ split; [discriminate | intros _; eexists; reflexivity]. }
  destruct (sliced_arguments IMITATION_DATASET_SAMPLING_RATE a) as [r|e].
  2:{ split; [discriminate | intros _; eexists; reflexivity]. }
  cbn [bbind]. rewrite append_cases. unfold rejected.
  destruct (telemetry_aligned r) eqn:Et; cbn [negb orb].
  - destruct (existsb both_pedals (action_history r)) eqn:Ep; cbn [negb].
    + split; [discriminate | intros _; eexists; reflexivity].
    + split; [|discriminate]. intros _. exists r. split; [reflexivity|].
      now rewrite append_cases, Et, Ep.
  - split; [discriminate | intros _; eexists; reflexivity].
Qed.

Lemma load_records_all (fs : list String.string) :
  forall d,
    forallb loads' fs = true ->
    load_records' fs d
    = Done (run_appends conf float32 np_std d (records_of' fs)).
Proof.
  induction fs as [|f fs IH]; intros d H; [reflexivity|].
  cbn [forallb] in H. apply andb_true_iff in H. destruct H as [Hf Hfs].
  destruct (proj1 (load_record_cases f d) Hf) as [r [Er El]].
  cbn [load_records]. rewrite El. cbn [bbind]. rewrite (IH _ Hfs).
  unfold records_of. cbn [flat_map]. rewrite Er. reflexivity.
Qed.

Lemma load_records_some_bad (fs : list String.string) :
  forall d,
    forallb loads' fs = false -> exists e, load_records' fs d = Aborted e.
Proof.
  induction fs as [|f fs IH]; intros d H; [discriminate|].
  cbn [forallb] in H. cbn [load_records].
  destruct (loads' f) eqn:Hf.
  - destruct (proj1 (load_record_cases f d) Hf) as [r [_ El]].
    rewrite El. cbn [bbind]. apply IH. exact H.
  - destruct (proj2 (load_record_cases f d) Hf) as [e El].
    rewrite El. exists e. reflexivity.
Qed.

(** X15.  [DaggerDataset.__init__] builds a dataset exactly when every file
    with [.npz] in its name loads, has the seven keys, can be sliced and
    gives a record that [append] accepts; one file that does not aborts the
    construction.  The dataset built is the one that the [append] calls for
    the sliced records of those files, in the order of the files, and one
    [recompute_weights] call give. *)
Theorem X15_dagger_all_or_nothing (record_files : list String.string) :
  let kept := filter Path.is_record_file record_files in
  (forallb loads' kept = true ->
   dagger' record_files
   = Done (snd (recompute_weights
                  conf float32 discretize_and_compute_balancing_weights
                  (run_appends conf float32 np_std (__init__ conf)
                               (records_of' kept)))))
  /\ (forallb loads' kept = false ->
      exists e, dagger' record_files = Aborted e).
Proof.
  intro kept. unfold DaggerDataset__init__. fold kept. split; intro H.
  - now rewrite (load_records_all kept (__init__ conf) H).
  - destruct (load_records_some_bad kept (__init__ conf) H) as [e E].
    rewrite E. exists e. reflexivity.
Qed.

Lemma records_of_aligned (fs : list String.string) :
  (forall path a, np_load path = Some a -> archive_aligned a) ->
  Forall (fun r => series_aligned r = true) (records_of' fs).
Proof.
  intro Harch. unfold records_of. apply Forall_forall. intros r Hin.
  apply in_flat_map in Hin. destruct Hin as [f [_ Hin]].
  unfold record_of in Hin.
  destruct (np_load _) as [a|] eqn:Ea; [|destruct Hin].
  destruct (sliced_arguments IMITATION_DATASET_SAMPLING_RATE a) as [r'|] eqn:Es;
    [|destruct Hin].
  destruct Hin as [<-|[]].
  exact (@sliced_arguments_aligned _ _ _ (Harch _ _ Ea) Es).
Qed.

(** X16.  When the arrays of every archive have one length and the
    balancing function returns one weight per action, a dataset that
    [DaggerDataset.__init__] builds is ready: its five queues have one
    length [n], at most [IMITATION_MAX_MEMORY], it has [n] weights, and
    [get(i)] returns a tuple for every [-n <= i < n]. *)
Theorem X16_dagger_dataset_ready (record_files : list String.string)
    (d : AbstractDataset) (i : Z)
    (Hone : forall a bins,
        length (discretize_and_compute_balancing_weights a bins) = length a)
    (Harchives : forall path a, np_load path = Some a -> archive_aligned a)
    (Hbuilt : dagger' record_files = Done d)
    (Hrange : (- Z.of_nat (__len__ d) <= i < Z.of_nat (__len__ d))%Z) :
  aligned d
  /\ (__len__ d <= IMITATION_MAX_MEMORY conf)%nat
  /\ (exists ws, instance_weights d = Some ws /\ length ws = __len__ d)
  /\ exists s, __getitem__ conf d i = Ok s.
Proof.
  unfold DaggerDataset__init__ in Hbuilt.
  set (kept := filter Path.is_record_file record_files) in *.
  destruct (forallb loads' kept) eqn:Hall.
  2:{ destruct (load_records_some_bad kept (__init__ conf) Hall) as [e E].
      rewrite E in Hbuilt. discriminate Hbuilt. }
  rewrite (load_records_all kept (__init__ conf) Hall) in Hbuilt.
  cbn [bbind] in Hbuilt. injection Hbuilt as Hd.
  destruct (init_invariant conf) as [Hb Hh].
  destruct (run_appends_invariant conf float32 np_std
              (records_of_aligned kept Harchives) Hb Hh) as [_ Hlast].
  remember (run_appends conf float32 np_std (__init__ conf) (records_of' kept))
    as d0 eqn:Hd0.
  clear Hd0.
  assert (Hal0 : aligned d0) by exact (holds_last_aligned Hlast).
  assert (Hcap : (__len__ d0 <= IMITATION_MAX_MEMORY conf)%nat).
  { destruct Hlast as [Ho _]. unfold __len__, Deque.len.
    rewrite Ho, length_map, length_lastn. lia. }
  remember (map float32
              (discretize_and_compute_balancing_weights
                 (Deque.items (action d0)) (IMITATION_BALANCE_BINS conf)))
    as ws eqn:Hws.
  assert (Hd' : d = MkDataset (observation d0) (state d0) (action d0)
                              (curvature d0) (masks d0) (Some ws)).
  { rewrite <- Hd. unfold recompute_weights. cbn [snd]. now rewrite Hws. }
  assert (Hlen : length ws = __len__ d0).
  { rewrite Hws, length_map, Hone.
    destruct Hal0 as [_ [Ha _]]. exact Ha. }
  clear Hd Hws. subst d.
  assert (Hal : aligned (MkDataset (observation d0) (state d0) (action d0)
                                   (curvature d0) (masks d0) (Some ws)))
    by exact Hal0.
  split; [exact Hal|]. split; [exact Hcap|].
  split; [exists ws; split; [reflexivity | exact Hlen]|].
  destruct (@getitem_in_range conf _ i Hal Hrange) as [o [s [a [c [m E]]]]].
  destruct (@sequence_index_in _ ws i) as [w Ew]; [rewrite Hlen; exact Hrange|].
  exists (MkSample (squeeze0 (preprocess_obs conf (Single o))) s a w c m).
  rewrite E. unfold weight_at. cbn [instance_weights rbind]. now rewrite Ew.
Qed.

End LoadingProperties.

(** ** The paths of a directory of records *)

Lemma string_le_cases (a b : String.string) :
  string_le a b <-> a = b \/ OrderedTypeEx.String_as_OT.lt a b.
Proof.
  unfold string_le, String.leb.
  pose proof (OrderedTypeEx.String_as_OT.cmp_eq a b) as Heq.
  pose proof (OrderedTypeEx.String_as_OT.cmp_lt a b) as Hlt.
  unfold OrderedTypeEx.String_as_OT.cmp in *.
  destruct (String.compare a b) eqn:E.
  - split; [intros _; left; now apply Heq | reflexivity].
  - split; [intros _; right; now apply Hlt | reflexivity].
  - split; [discriminate|].
    intros [H|H]; [apply Heq in H | apply Hlt in H]; discriminate H.
Qed.

Lemma string_le_trans (a b c : String.string) :
  string_le a b -> string_le b c -> string_le a c.
Proof.
  rewrite !string_le_cases. intros [->|H1] [->|H2]; auto.
  right. exact (OrderedTypeEx.String_as_OT.lt_trans _ _ _ H1 H2).
Qed.

Lemma insert_permutation (x : String.string) (l : list String.string) :
  Permutation (Path.insert x l) (x :: l).
Proof.
  induction l as [|y l IH]; cbn [Path.insert]; [apply Permutation_refl|].
  destruct (String.leb x y); [apply Permutation_refl|].
  apply perm_trans with (y :: x :: l); [now apply perm_skip | apply perm_swap].
Qed.

Lemma insert_sorted (x : String.string) (l : list String.string) :
  StronglySorted string_le l -> StronglySorted string_le (Path.insert x l).
Proof.
  intro H. induction H as [|y l Hl IH Hy]; cbn [Path.insert].
  - constructor; constructor.
  - destruct (String.leb x y) eqn:E.
    + constructor; [now constructor|].
      constructor; [exact E|].
      revert Hy. apply Forall_impl. intros z Hz.
      exact (string_le_trans E Hz).
    + constructor; [exact IH|].
      apply Forall_forall. intros z Hz.
      apply (Permutation_in z (insert_permutation x l)) in Hz.
      destruct Hz as [<-|Hz].
      * destruct (String.leb_total x y) as [H|H]; [congruence | exact H].
      * rewrite Forall_forall in Hy. now apply Hy.
Qed.

Lemma sorted_permutation (l : list String.string) :
  Permutation (Path.sorted l) l.
Proof.
  induction l as [|x l IH]; [apply Permutation_refl|].
  unfold Path.sorted. cbn [fold_right].
  apply perm_trans with (x :: Path.sorted l);
    [apply insert_permutation | now apply perm_skip].
Qed.

Lemma sorted_is_sorted (l : list String.string) :
  StronglySorted string_le (Path.sorted l).
Proof.
  induction l as [|x l IH]; [constructor|].
  unfold Path.sorted. cbn [fold_right]. now apply insert_sorted.
Qed.

Lemma sorted_unique (l1 : list String.string) :
  forall l2,
    StronglySorted string_le l1 -> StronglySorted string_le l2 ->
    Permutation l1 l2 -> l1 = l2.
Proof.
  induction l1 as [|a l1 IH]; intros l2 H1 H2 HP.
  - apply Permutation_nil in HP. now subst.
  - destruct l2 as [|b l2].
    { apply Permutation_sym, Permutation_nil in HP. discriminate HP. }
    inversion H1 as [|a' l1' Hs1 Ha]; subst.
    inversion H2 as [|b' l2' Hs2 Hb]; subst.
    assert (Hab : a = b).
    { assert (Ia : In a (b :: l2))
        by (apply (Permutation_in a HP); now left).
      assert (Ib : In b (a :: l1))
        by (apply (Permutation_in b (Permutation_sym HP)); now left).
      destruct Ia as [->|Ia]; [reflexivity|].
      destruct Ib as [->|Ib]; [reflexivity|].
      rewrite Forall_forall in Ha, Hb.
      apply String.leb_antisym; [apply Ha | apply Hb]; assumption. }
    subst b. f_equal. apply IH; try assumption.
    now apply Permutation_cons_inv with a.
Qed.

Lemma filter_sorted (f : String.string -> bool) (l : list String.string) :
  StronglySorted string_le l -> StronglySorted string_le (filter f l).
Proof.
  intro H. induction H as [|x l Hl IH Hx]; cbn [filter]; [constructor|].
  destruct (f x); [|exact IH].
  constructor; [exact IH|].
  apply Forall_forall. intros y Hy. apply filter_In in Hy.
  rewrite Forall_forall in Hx. now apply Hx.
Qed.

Lemma filter_permutation (f : String.string -> bool)
    (l l' : list String.string) :
  Permutation l l' -> Permutation (filter f l) (filter f l').
Proof.
  intro H. induction H as [|x l l' _ IH|x y l|l l' l'' _ IH1 _ IH2];
    cbn [filter].
  - constructor.
  - destruct (f x); [now constructor | exact IH].
  - destruct (f x), (f y); try apply Permutation_refl. apply perm_swap.
  - now apply perm_trans with (filter f l').
Qed.

Lemma contains_app_r (pat a b : String.string) :
  Path.contains pat b = true -> Path.contains pat (String.append a b) = true.
Proof.
  intro H. induction a as [|c a IH]; [exact H|].
  cbn [String.append Path.contains]. rewrite IH. apply orb_true_r.
Qed.

Lemma contains_join (pat a b : String.string) :
  Path.contains pat b = true -> Path.contains pat (Path.join a b) = true.
Proof.
  intro H. unfold Path.join.
  destruct (String.prefix _ b); [exact H|].
  destruct (_ || _); repeat apply contains_app_r; exact H.
Qed.

Lemma filter_all {A : Type} (f : A -> bool) (l : list A) :
  Forall (fun x => f x = true) l -> filter f l = l.
Proof.
  intro H. induction H as [|x l Hx _ IH]; [reflexivity|].
  cbn [filter]. now rewrite Hx, IH.
Qed.

Lemma record_paths_kept (dataset_path : String.string)
    (listing : list String.string) :
  filter Path.is_record_file (record_paths dataset_path listing)
  = record_paths dataset_path listing.
Proof.
  unfold record_paths.
  apply filter_all. apply Forall_map. apply Forall_forall.
  intros f Hf. apply filter_In in Hf. destruct Hf as [_ Hf].
  unfold Path.is_record_file in *. now apply contains_join.
Qed.

Lemma record_paths_permutation (dataset_path : String.string)
    (listing listing' : list String.string) :
  Permutation listing listing' ->
  record_paths dataset_path listing = record_paths dataset_path listing'.
Proof.
  intro HP. unfold record_paths. do 2 f_equal.
  apply sorted_unique; try apply sorted_is_sorted.
  apply perm_trans with listing; [apply sorted_permutation|].
  apply perm_trans with listing'; [exact HP|].
  apply Permutation_sym, sorted_permutation.
Qed.

(** X17.  The paths that [ImitationDataset.__init__] hands over do not
    depend on the order in which [os.listdir] lists the directory; they are
    the joined paths of the listed names with [.npz] in them, in ascending
    order of the names; and the filter of [DaggerDataset.__init__] keeps
    every one of them. *)
Theorem X17_record_paths_sorted_and_kept
    (dataset_path : String.string) (listing : list String.string) :
  (forall listing',
      Permutation listing listing' ->
      record_paths dataset_path listing = record_paths dataset_path listing')
  /\ (exists names,
        record_paths dataset_path listing
        = map (Path.join dataset_path) names
        /\ StronglySorted string_le names
        /\ Permutation names (filter Path.is_record_file listing))
  /\ filter Path.is_record_file (record_paths dataset_path listing)
     = record_paths dataset_path listing.
Proof.
  split; [|split].
  - intros listing'. apply record_paths_permutation.
  - exists (filter Path.is_record_file (Path.sorted listing)).
    split; [reflexivity|]. split.
    + apply filter_sorted, sorted_is_sorted.
    + apply filter_permutation, sorted_permutation.
  - apply record_paths_kept.
Qed.

Section DirectoryProperties.

Variable conf : Conf.
Variable float32 : Q -> Q.
Variable np_std : list Q -> Q.
Variable discretize_and_compute_balancing_weights :
  list model_action -> nat -> list Q.
Variable IMITATION_DATASET_SAMPLING_RATE : Z.
Variable islink : String.string -> bool.
Variable readlink : String.string -> String.string.
Variable np_load : String.string -> option archive.

(** X18.  [ImitationDataset.__init__] aborts when the directory cannot be
    listed.  When it can and every listed name with [.npz] in it, joined to
    the directory, loads, the dataset is the one that the [append] calls for
    the records of those paths in ascending order of the names and one
    [recompute_weights] call give; a directory that lists the same names in
    another order gives the same outcome. *)
Theorem X18_imitation_dataset_of_directory
    (dataset_path : String.string) (listing : list String.string)
    (listdir listdir' : String.string -> option (list String.string)) :
  let imitation ls :=
    ImitationDataset__init__ conf float32 np_std
      discretize_and_compute_balancing_weights
      IMITATION_DATASET_SAMPLING_RATE islink readlink np_load ls dataset_path in
  (listdir dataset_path = None -> imitation listdir = Aborted OSError)
  /\ (listdir dataset_path = Some listing ->
      forallb (loads IMITATION_DATASET_SAMPLING_RATE islink readlink np_load)
              (record_paths dataset_path listing) = true ->
      imitation listdir
      = Done (snd (recompute_weights
                     conf float32 discretize_and_compute_balancing_weights
                     (run_appends conf float32 np_std (__init__ conf)
                        (records_of IMITATION_DATASET_SAMPLING_RATE
                                    islink readlink np_load
                                    (record_paths dataset_path listing))))))
  /\ (forall listing',
        listdir dataset_path = Some listing ->
        listdir' dataset_path = Some listing' ->
        Permutation listing listing' ->
        imitation listdir = imitation listdir').
Proof.
  intro imitation. unfold imitation, ImitationDataset__init__.
  split; [|split].
  - intros ->. reflexivity.
  - intros -> Hall. unfold DaggerDataset__init__.
    rewrite record_paths_kept.
    now rewrite (load_records_all conf float32 np_std
                   IMITATION_DATASET_SAMPLING_RATE islink readlink np_load
                   (record_paths dataset_path listing) (__init__ conf) Hall).
  - intros listing' -> -> HP.
    now rewrite (record_paths_permutation dataset_path HP).
Qed.

End DirectoryProperties.

(* ================================================================= *)
(** * Examples for the further properties *)

Lemma X2_gym_roundtrip_iff_nonnegative_witness :
  convert_action_gym_to_models [GymAction 0 1 0] = Ok [ModelAction 0 (1 - 0)]
  /\ Forall2 gym_eq (convert_action_models_to_gym [ModelAction 0 (1 - 0)])
             [GymAction 0 1 0].
Proof.
  split; [reflexivity|].
  apply (proj2 (@X2_gym_roundtrip_iff_nonnegative
                  [GymAction 0 1 0] [ModelAction 0 (1 - 0)] eq_refl)).
  repeat constructor; discriminate.
Defined.

Lemma X3_masks_shape_and_flags_witness :
  nth_error (as_batch (Single hud_frame)) 0 = Some hud_frame
  /\ matrix_shape 96 96 hud_frame
  /\ at4 (extract_observation_features (Single hud_frame)) 0 0 10 10
     = Some true
  /\ at4 (extract_observation_features (Single hud_frame)) 0 1 70 48
     = Some true.
Proof.
  split; [reflexivity|]. split; [exact hud_frame_shape|]. split.
  - exact (proj1 (proj2 (proj2
             (@X3_masks_shape_and_flags (Single hud_frame) 0 10 10 96 96
                hud_frame eq_refl hud_frame_shape)))).
  - exact (proj2 (proj2 (proj2
             (@X3_masks_shape_and_flags (Single hud_frame) 0 70 48 96 96
                hud_frame eq_refl hud_frame_shape)))).
Defined.

Lemma X4_masks_overlap_witness :
  nth_error (as_batch (Batch [both_flags])) 0 = Some both_flags
  /\ at4 (extract_observation_features (Batch [both_flags])) 0 0 0 0 = Some true
  /\ at4 (extract_observation_features (Batch [both_flags])) 0 1 0 0 = Some true.
Proof.
  split; [reflexivity|].
  apply (proj2 (@X4_masks_overlap (Batch [both_flags]) 0 0 0 both_flags eq_refl)).
  split; [lia|]. split; [reflexivity|].
  exists (Pixel 200 50 50). repeat split; reflexivity.
Defined.

Lemma five_steps_uint8 :
  Forall frame_is_uint8 (observation_history five_steps).
Proof.
  repeat constructor; cbn; lia.
Qed.

Lemma X5_observation_as_at_inference_witness :
  telemetry_aligned five_steps = true
  /\ Forall frame_is_uint8 (observation_history five_steps)
  /\ exists obs st,
       preprocess_input_testing conf3 no_spread
         (observation_history five_steps) (speed_history five_steps)
         (wheels_omegas_history five_steps)
         (angular_velocity_history five_steps)
         (steering_joint_angle_history five_steps) true
       = Ok (obs, st)
       /\ nth_error obs 2
          = Some (s_obs (assemble conf3
                           (timestep conf3 as_is no_spread five_steps 2) 1)).
Proof.
  split; [reflexivity|]. split; [exact five_steps_uint8|].
  apply (@X5_observation_as_at_inference conf3 as_is no_spread five_steps 2 1
           eq_refl five_steps_uint8).
  cbn. lia.
Defined.

Lemma X6_preprocess_obs_shape_witness :
  matrix_shape 96 96 hud_frame
  /\ exists channels,
       preprocess_obs conf3 (Single (RGB hud_frame)) = [channels]
       /\ length channels = 3%nat
       /\ Forall (matrix_shape 84 96) channels.
Proof.
  split; [exact hud_frame_shape|].
  exact (@X6_preprocess_obs_shape conf3 hud_frame 96 96 hud_frame_shape).
Defined.

Lemma X10_no_eviction_below_capacity_witness :
  Forall (fun r => series_aligned r = true) [one_step]
  /\ __len__ (run_appends conf3 as_is no_spread (__init__ conf3) [one_step])
     = 1%nat.
Proof.
  assert (H : Forall (fun r => series_aligned r = true) [one_step])
    by (repeat constructor).
  split; [exact H|].
  exact (proj1 (@X10_no_eviction_below_capacity conf3 as_is no_spread
                  [one_step] H)).
Defined.

Lemma grown_aligned : aligned grown.
Proof. repeat split. Qed.

Lemma X12_stale_weights_index_error_witness :
  aligned grown
  /\ instance_weights grown = Some [1]
  /\ __len__ grown = 2%nat
  /\ __getitem__ conf3 grown 1 = Raise IndexError.
Proof.
  split; [exact grown_aligned|]. split; [reflexivity|]. split; [reflexivity|].
  apply (@X12_stale_weights_index_error conf3 grown [1] 1 grown_aligned eq_refl).
  decide_order.
Defined.

Lemma X13_ready_after_recompute_witness :
  let d := snd (append3 five_steps (__init__ conf3)) in
  aligned d
  /\ exists ws d',
       recompute_weights conf3 as_is unit_weights d = (Ok ws, d')
       /\ length ws = __len__ d
       /\ __len__ d' = __len__ d
       /\ exists s, __getitem__ conf3 d' (-1) = Ok s
                    /\ sequence_index ws (-1) = Ok (s_weight s).
Proof.
  intro d.
  assert (Hal : aligned d) by (repeat split).
  split; [exact Hal|].
  apply (@X13_ready_after_recompute conf3 as_is unit_weights d (-1)).
  - intros a bins. apply length_map.
  - exact Hal.
  - decide_order.
Defined.

Lemma one_archive_aligned :
  forall path a, Sample_files.one_archive path = Some a -> archive_aligned a.
Proof.
  intros path a H. unfold Sample_files.one_archive in H.
  destruct (String.eqb path _); [|discriminate H].
  injection H as <-. exists 5%nat. repeat split.
Qed.

Lemma X16_dagger_dataset_ready_witness :
  Sample_files.dagger3 = Done Sample_files.dagger3_dataset
  /\ __len__ Sample_files.dagger3_dataset = 3%nat
  /\ aligned Sample_files.dagger3_dataset
  /\ exists s, __getitem__ conf3 Sample_files.dagger3_dataset 2 = Ok s.
Proof.
  assert (Hb : Sample_files.dagger3 = Done Sample_files.dagger3_dataset)
    by reflexivity.
  split; [exact Hb|]. split; [reflexivity|].
  assert (Hone : forall a bins, length (unit_weights a bins) = length a)
    by (intros a bins; apply length_map).
  assert (Hr : (- Z.of_nat (__len__ Sample_files.dagger3_dataset) <= 2
                < Z.of_nat (__len__ Sample_files.dagger3_dataset))%Z)
    by decide_order.
  destruct (@X16_dagger_dataset_ready conf3 as_is no_spread unit_weights 2
              Sample_files.no_link Sample_files.same_path
              Sample_files.one_archive Sample_files.two_files
              Sample_files.dagger3_dataset 2 Hone one_archive_aligned Hb Hr)
    as [Hal [_ [_ Hget]]].
  split; [exact Hal | exact Hget].
Defined.
